(** * Pyarmor command line front end ([cli/__main__.py])

    A shallow embedding of the command interpretation layer: the options
    normalizer [format_gen_args], the cross-field validator
    [check_gen_context], the generation dispatcher [cmd_gen] with its two
    small handlers, and the top-level error policy of [main].

    Python objects are modelled as follows.
    - An [argparse.Namespace] and a [dict] with string keys are finite maps
      [gmap string value]; reading a missing attribute raises
      [AttributeError], subscripting a missing key raises [KeyError].
    - Exceptions are values of type [exn]; a computation that can raise
      returns a [result].
    - Logging, the log files and the calls made to collaborators that live
      outside this file (Context, Builder, Configer, the registers, the
      shell, the file system) are threaded through a state [Sys]; what an
      outside call answers is read from an environment [Env]. *)

From Stdlib Require Import ZArith String Ascii List Bool Lia.
From stdpp Require Import base option list gmap strings.

Open Scope string_scope.
Open Scope Z_scope.

(** ** Python values *)

Inductive value : Type :=
| VNone
| VBool (b : bool)
| VInt (n : Z)
| VStr (s : string)
| VList (l : list string)
| VFunc (name : string)
| VFormat (template : string) (arg : value).

(** [VFormat t v] is the string produced by [t % v]; it is kept symbolic. *)

Definition is_None (v : value) : bool :=
  match v with VNone => true | _ => false end.

(** Truth value of an object used as a condition. *)
Definition truthy (v : value) : bool :=
  match v with
  | VNone => false
  | VBool b => b
  | VInt n => negb (n =? 0)
  | VStr s => negb (String.eqb s "")
  | VList l => match l with [] => false | _ => true end
  | VFunc _ => true
  | VFormat _ _ => true
  end.

(** ** Exceptions and results *)

Inductive exn : Type :=
| CliError (args : list value)
| AttributeError (attr : string)
| KeyError (key : string)
| IndexError
| TypeError (what : string)
| FileNotFoundError (what : string)
| OtherException (cls : string) (what : string)
| SystemExit (code : Z).

(** [except Exception] catches every class but those deriving directly from
    [BaseException]; of these only [SystemExit] occurs here. *)
Definition is_Exception (e : exn) : bool :=
  match e with SystemExit _ => false | _ => true end.

Definition is_CliError (e : exn) : bool :=
  match e with CliError _ => true | _ => false end.

Inductive result (A : Type) : Type :=
| Ok (a : A)
| Raise (e : exn).
Arguments Ok {A} a.
Arguments Raise {A} e.

Definition rbind {A B} (r : result A) (k : A -> result B) : result B :=
  match r with
  | Ok a => k a
  | Raise e => Raise e
  end.

Notation "x <?- r ;; k" := (rbind r (fun x => k))
  (at level 60, r at next level, right associativity).

(** ** Strings *)

Definition dq : string := String (ascii_of_nat 34) EmptyString.

Definition lower_ascii (c : ascii) : ascii :=
  let n := nat_of_ascii c in
  if (Nat.leb 65 n && Nat.leb n 90)%bool then ascii_of_nat (n + 32) else c.

(** Lowercasing of the letters A-Z: what [str.lower] does on a string
    written in ASCII.  The program takes [str.lower] from the
    environment; this function serves the sample environments. *)
Fixpoint lower (s : string) : string :=
  match s with
  | EmptyString => EmptyString
  | String c r => String (lower_ascii c) (lower r)
  end.

Definition startswith (s p : string) : bool := String.prefix p s.

(** [sep.join(l)] *)
Definition join (sep : string) (l : list string) : string := String.concat sep l.

(** [x in (a, b, ...)] for strings *)
Definition str_in (x : string) (l : list string) : bool :=
  existsb (String.eqb x) l.

(** ** Namespaces and option dictionaries *)

Abbreviation Namespace := (gmap string value).
Abbreviation Options := (gmap string value).

Definition getattr (args : Namespace) (x : string) : result value :=
  match args !! x with
  | Some v => Ok v
  | None => Raise (AttributeError x)
  end.

Definition getitem (d : Options) (k : string) : result value :=
  match d !! k with
  | Some v => Ok v
  | None => Raise (KeyError k)
  end.

(** [d.get(k, default)] *)
Definition dict_get (d : Options) (k : string) (default : value) : value :=
  match d !! k with
  | Some v => v
  | None => default
  end.

(** Items obtained by iterating over an object: a list gives its
    elements, a string its characters. *)
Definition chars (s : string) : list string :=
  map (fun c => String c EmptyString) (list_ascii_of_string s).

Definition iter (v : value) : result (list string) :=
  match v with
  | VList l => Ok l
  | VStr s => Ok (chars s)
  | VFormat _ _ => Raise (TypeError "iteration over a formatted string is not modelled")
  | _ => Raise (TypeError "object is not iterable")
  end.

(** [v > k] for an integer constant [k] *)
Definition gt_int (v : value) (k : Z) : result bool :=
  match v with
  | VInt n => Ok (k <? n)
  | VBool b => Ok (k <? Z.b2z b)
  | _ => Raise (TypeError "'>' not supported")
  end.

(** ** The argument schema of the [gen] command

    [gen_parser] declares the destinations below.  A flag that was not
    given holds its default: [None] for every option but [--no-runtime],
    whose [store_true] action has no [default=None] and so defaults to
    [False]. *)

Record MainFlags := {
  m_version : bool;
  m_silent : bool;
  m_debug : bool;
  m_interactive : bool;
  m_home : option string;
}.

Record GenFlags := {
  g_output : option string;
  g_pack : option string;
  g_no_runtime : bool;
  g_recursive : bool;
  g_findall : bool;
  g_includes : list string;
  g_excludes : list string;
  g_obf_module : option Z;
  g_obf_code : option Z;
  g_no_wrap : bool;
  g_mix_str : bool;
  g_mix_name : bool;
  g_enable_bcc : bool;
  g_enable_rft : bool;
  g_enable_jit : bool;
  g_enable_themida : bool;
  g_assert_call : bool;
  g_assert_import : bool;
  g_enables : list string;
  g_restrict_module : option Z;
  g_relative_import : bool;
  g_relative : option string;
  g_platforms : list string;
  g_outer : option string;
  g_expired : option string;
  g_period : option Z;
  g_devices : list string;
  g_bind_interp : option string;
  g_hook : option string;
  g_inputs : list string;
}.

(** [action='store_true', default=None] *)
Definition store_true_or_None (b : bool) : value :=
  if b then VBool true else VNone.

(** [action='store_const', const=1, default=None] *)
Definition store_const_1 (b : bool) : value :=
  if b then VInt 1 else VNone.

(** [action='append'] *)
Definition appended (l : list string) : value :=
  match l with [] => VNone | _ => VList l end.

Definition opt_str (o : option string) : value :=
  match o with Some s => VStr s | None => VNone end.

Definition opt_int (o : option Z) : value :=
  match o with Some n => VInt n | None => VNone end.

Definition in_choices (o : option Z) (choices : list Z) : bool :=
  match o with
  | None => true
  | Some n => existsb (Z.eqb n) choices
  end.

(** What the parser accepts: the exclusive group [--pack] / [--no-runtime],
    the [choices] of the typed options and [nargs='+'] for the inputs. *)
Definition wf_gen_flags (g : GenFlags) : bool :=
  negb (bool_decide (is_Some (g_pack g)) && g_no_runtime g)
  && in_choices (g_obf_module g) [0; 1]
  && in_choices (g_obf_code g) [0; 1]
  && in_choices (g_restrict_module g) [0; 1; 2]
  && forallb (fun x => str_in x ["jit"; "bcc"; "rft"; "themida"]) (g_enables g)
  && match g_inputs g with [] => false | _ => true end.

Definition gen_namespace (m : MainFlags) (g : GenFlags) : Namespace :=
  list_to_map [
    ("version", VBool (m_version m));
    ("silent", VBool (m_silent m));
    ("debug", VBool (m_debug m));
    ("interactive", VBool (m_interactive m));
    ("home", opt_str (m_home m));
    ("output", opt_str (g_output g));
    ("pack", opt_str (g_pack g));
    ("no_runtime", VBool (g_no_runtime g));
    ("recursive", store_true_or_None (g_recursive g));
    ("findall", store_true_or_None (g_findall g));
    ("includes", appended (g_includes g));
    ("excludes", appended (g_excludes g));
    ("obf_module", opt_int (g_obf_module g));
    ("obf_code", opt_int (g_obf_code g));
    ("no_wrap", store_true_or_None (g_no_wrap g));
    ("mix_str", store_true_or_None (g_mix_str g));
    ("mix_name", store_true_or_None (g_mix_name g));
    ("enable_bcc", store_true_or_None (g_enable_bcc g));
    ("enable_rft", store_true_or_None (g_enable_rft g));
    ("enable_jit", store_true_or_None (g_enable_jit g));
    ("enable_themida", store_true_or_None (g_enable_themida g));
    ("assert_call", store_true_or_None (g_assert_call g));
    ("assert_import", store_true_or_None (g_assert_import g));
    ("enables", appended (g_enables g));
    ("restrict_module", opt_int (g_restrict_module g));
    ("relative_import", store_const_1 (g_relative_import g));
    ("relative", opt_str (g_relative g));
    ("platforms", appended (g_platforms g));
    ("outer", opt_str (g_outer g));
    ("expired", opt_str (g_expired g));
    ("period", opt_int (g_period g));
    ("devices", appended (g_devices g));
    ("bind_interp", opt_str (g_bind_interp g));
    ("hook", opt_str (g_hook g));
    ("inputs", VList (g_inputs g));
    ("func", VFunc "cmd_gen")
  ].

(** ** The per-invocation context

    [Context] is defined in [cli/context.py]; only what this file reads
    from it appears here, one field per accessor.  [push] is its overlay
    operation and is taken from the environment further down. *)

Record Context := {
  cmd_options : Options;
  runtime_platforms : value;
  enable_themida : value;
  pyarmor_platform : string;
  native_platform : string;
  runtime_outer : option string;
  runtime_keyfile : string;
  runtime_keyid : string;
  runtime_key : value;
  debug_logfile : string;
  version_info : string;
}.

(** Truth value of [ctx.runtime_outer]: [None] and the empty string are
    false. *)
Definition outer_given (ctx : Context) : option string :=
  match runtime_outer ctx with
  | Some s => if String.eqb s "" then None else Some s
  | None => None
  end.

(** ** The options normalizer *)

(** The names copied by the first loop of [format_gen_args], as written
    there. *)
Definition gen_option_names : list string :=
  [ "recursive"; "findall"; "inputs"; "output"; "no_runtime";
    "enable_bcc"; "enable_jit"; "enable_rft"; "enable_themida";
    "obj_module"; "obf_code"; "assert_import"; "assert_call";
    "mix_name"; "mix_str"; "relative_import"; "restrict_module";
    "platforms"; "outer"; "period"; "expired"; "devices" ].

Fixpoint copy_set (args : Namespace) (names : list string) (options : Options)
  : result Options :=
  match names with
  | [] => Ok options
  | x :: rest =>
      v <?- getattr args x ;;
      copy_set args rest (if is_None v then options else <[x := v]> options)
  end.

Definition set_enables (options : Options) (l : list string) : Options :=
  fold_left (fun o x => <["enable_" ++ x := VBool true]> o) l options.

Definition format_gen_args (ctx : Context) (args : Namespace) : result Options :=
  options <?- copy_set args gen_option_names ∅ ;;
  let restrict := dict_get options "restrict_module" (VInt 0) in
  b <?- gt_int restrict 1 ;;
  let options := if b then <["mix_name" := VInt 1]> options else options in
  enables <?- getattr args "enables" ;;
  options <?- (if truthy enables
               then l <?- iter enables ;; Ok (set_enables options l)
               else Ok options) ;;
  relative <?- getattr args "relative" ;;
  let options := if truthy relative
                 then <["relative_import" := relative]> options else options in
  no_wrap <?- getattr args "no_wrap" ;;
  let options := if truthy no_wrap
                 then <["wrap_mode" := VInt 0]> options else options in
  includes <?- getattr args "includes" ;;
  options <?- (if truthy includes
               then l <?- iter includes ;; Ok (<["includes" := VStr (join " " l)]> options)
               else Ok options) ;;
  excludes <?- getattr args "excludes" ;;
  options <?- (if truthy excludes
               then l <?- iter excludes ;; Ok (<["excludes" := VStr (join " " l)]> options)
               else Ok options) ;;
  Ok options.

(** ** Calls to collaborators

    Every call that leaves this file is recorded, in order. *)

Inductive call : Type :=
| NewContext (home : string)
| CtxPush (options : Options)
| ReadOuterInfo (name : string)
| NewBuilder
| GenerateRuntimeKey (outer : string)
| GenerateRuntime (output : value)
| Process (options : Options) (pack : value)
| Makedirs (path : string)
| WriteFile (path : string) (data : value)
| NewConfiger (encoding : value)
| ConfigerCall (meth : string) (section options : value) (local : bool) (name : value)
| NewRegister (dry : bool)
| RegisterCheckArgs
| RegisterCall (meth : string) (regfile : value) (regname product : value)
| PrintVersion
| PrintHelp
| ShellCmdloop.

(** ** Logging

    The part of the [logging] module the program relies on: numeric
    levels, the root logger configured by [basicConfig], the logger
    [Pyarmor] (no level and no handler of its own, so its records go to
    the root handlers when the root level admits them) and the logger
    [Pyarmor.Error] set up by [log_exception]. *)

Definition DEBUG : Z := 10.
Definition INFO : Z := 20.
Definition ERROR : Z := 40.
Definition CRITICAL : Z := 50.

Inductive logmsg : Type :=
| LText (fmt : string) (args : list value)
| LDict (fmt : string) (d : Options)
| LExn (e : exn).

Record log_record := {
  lr_level : Z;
  lr_msg : logmsg;
  lr_exc_info : option exn;
}.

Inductive handler : Type :=
| StreamHandler (fmt : string)
| FileHandler (path : string) (fmt : string) (level : Z)
| NullHandler.

(** A line of a log file: the format of the handler that wrote it and the
    record; when [lr_exc_info] holds an exception the formatter appends its
    traceback. *)
Definition logline : Type := string * log_record.

Record Sys := {
  root_level : Z;
  root_handlers : list handler;
  error_handlers : list handler;
  error_propagate : bool;
  console : list log_record;
  logfiles : gmap string (list logline);
  calls : list call;
}.

Definition set_root_level (n : Z) (s : Sys) : Sys :=
  {| root_level := n; root_handlers := root_handlers s;
     error_handlers := error_handlers s; error_propagate := error_propagate s;
     console := console s; logfiles := logfiles s; calls := calls s |}.

Definition add_root_handler (h : handler) (s : Sys) : Sys :=
  {| root_level := root_level s; root_handlers := root_handlers s ++ [h];
     error_handlers := error_handlers s; error_propagate := error_propagate s;
     console := console s; logfiles := logfiles s; calls := calls s |}.

Definition add_error_handler (h : handler) (s : Sys) : Sys :=
  {| root_level := root_level s; root_handlers := root_handlers s;
     error_handlers := error_handlers s ++ [h]; error_propagate := error_propagate s;
     console := console s; logfiles := logfiles s; calls := calls s |}.

Definition set_error_propagate (b : bool) (s : Sys) : Sys :=
  {| root_level := root_level s; root_handlers := root_handlers s;
     error_handlers := error_handlers s; error_propagate := b;
     console := console s; logfiles := logfiles s; calls := calls s |}.

Definition write_console (r : log_record) (s : Sys) : Sys :=
  {| root_level := root_level s; root_handlers := root_handlers s;
     error_handlers := error_handlers s; error_propagate := error_propagate s;
     console := console s ++ [r]; logfiles := logfiles s; calls := calls s |}.

Definition set_logfile (path : string) (content : list logline) (s : Sys) : Sys :=
  {| root_level := root_level s; root_handlers := root_handlers s;
     error_handlers := error_handlers s; error_propagate := error_propagate s;
     console := console s; logfiles := <[path := content]> (logfiles s);
     calls := calls s |}.

Definition record_call (c : call) (s : Sys) : Sys :=
  {| root_level := root_level s; root_handlers := root_handlers s;
     error_handlers := error_handlers s; error_propagate := error_propagate s;
     console := console s; logfiles := logfiles s; calls := calls s ++ [c] |}.

(** [logging.FileHandler(path, mode='w')] opens the file at once; this
    is the state once the file is open: it is empty. *)
Definition open_logfile (path : string) (s : Sys) : Sys := set_logfile path [] s.

(** [Handler.handle] behind the level filter of [callHandlers]. *)
Definition handle (h : handler) (r : log_record) (s : Sys) : Sys :=
  match h with
  | StreamHandler _ => write_console r s
  | FileHandler path fmt level =>
      if level <=? lr_level r
      then set_logfile path (default [] (logfiles s !! path) ++ [(fmt, r)]) s
      else s
  | NullHandler => s
  end.

Definition call_handlers (hs : list handler) (r : log_record) (s : Sys) : Sys :=
  fold_left (fun s h => handle h r s) hs s.

(** [logger.log(level, msg)] on the logger [Pyarmor]: enabled when the
    level reaches the effective level, which is the root's. *)
Definition logger_log (level : Z) (msg : logmsg) (s : Sys) : Sys :=
  if root_level s <=? level
  then call_handlers (root_handlers s)
         {| lr_level := level; lr_msg := msg; lr_exc_info := None |} s
  else s.

(** [log.exception(e)] on the logger [Pyarmor.Error]: an [ERROR] record
    carrying the exception information.  The logger has no level of its
    own, so it too is enabled by the root level. *)
Definition error_log_exception (e : exn) (s : Sys) : Sys :=
  if root_level s <=? ERROR
  then
    let r := {| lr_level := ERROR; lr_msg := LExn e; lr_exc_info := Some e |} in
    let s := call_handlers (error_handlers s) r s in
    if error_propagate s then call_handlers (root_handlers s) r s else s
  else s.

Definition error_logfile : string := "pyarmor.error.log".
Definition error_logfmt : string := "%(process)d %(processName)s %(asctime)s".

(** [logging.basicConfig(level=logging.INFO, format=...)] in a fresh
    process. *)
Definition basicConfig : Sys :=
  {| root_level := INFO;
     root_handlers := [StreamHandler "%(levelname)-8s %(message)s"];
     error_handlers := []; error_propagate := true;
     console := []; logfiles := ∅; calls := [] |}.

(** ** The environment

    What the collaborators and the operating system answer.  [str_lower]
    is [str.lower], whose Unicode case tables are not reproduced here;
    [log_opens] tells whether the error log can be opened for writing in
    the working directory. *)

Record Env := {
  parse_args : list string -> result Namespace;
  python_version : Z * Z * Z;
  getenv : string -> option string;
  expand_path : string -> string;
  path_join : string -> string -> string;
  path_exists : string -> bool;
  new_context : string -> Context;
  push : Context -> Options -> Context;
  answer : call -> result value;
  str_lower : string -> string;
  log_opens : string -> bool;
}.

(** ** Computations: state and exceptions *)

Definition M (A : Type) : Type := Sys -> Sys * result A.

Definition ret {A} (a : A) : M A := fun s => (s, Ok a).
Definition raise {A} (e : exn) : M A := fun s => (s, Raise e).
Definition lift {A} (r : result A) : M A := fun s => (s, r).

Definition bind {A B} (m : M A) (k : A -> M B) : M B :=
  fun s =>
    match m s with
    | (s', Ok a) => k a s'
    | (s', Raise e) => (s', Raise e)
    end.

Notation "x <~ m ;; k" := (bind m (fun x => k))
  (at level 60, m at next level, right associativity).
Notation "m ;;; k" := (bind m (fun _ => k))
  (at level 60, right associativity).

Definition log (level : Z) (msg : logmsg) : M unit :=
  fun s => (logger_log level msg s, Ok tt).

Definition as_str (v : value) : result string :=
  match v with
  | VStr s => Ok s
  | _ => Raise (TypeError "expected str")
  end.

(** [len(v)] *)
Definition py_len (v : value) : result Z :=
  match v with
  | VList l => Ok (Z.of_nat (length l))
  | VStr s => Ok (Z.of_nat (String.length s))
  | _ => Raise (TypeError "object has no len()")
  end.

(** [v[i]] for [i >= 0] *)
Definition item (v : value) (i : nat) : result value :=
  match v with
  | VList l =>
      match nth_error l i with
      | Some x => Ok (VStr x)
      | None => Raise IndexError
      end
  | VStr s =>
      match nth_error (chars s) i with
      | Some x => Ok (VStr x)
      | None => Raise IndexError
      end
  | _ => Raise (TypeError "object is not subscriptable")
  end.

(** [v[1:]] *)
Definition slice_from_1 (v : value) : result value :=
  match v with
  | VList l => Ok (VList (tl l))
  | VStr s => Ok (VStr (match s with EmptyString => s | String _ r => r end))
  | _ => Raise (TypeError "object is not subscriptable")
  end.

(** ** The program *)

Section Program.

Variable env : Env.

(** A call to a collaborator: recorded, then answered by the environment. *)
Definition extern (c : call) : M value :=
  fun s => (record_call c s, answer env c).

Definition _cmd_gen_key (ctx : Context) (options : Options) : M unit :=
  inputs <~ lift (getitem options "inputs") ;;
  n <~ lift (py_len inputs) ;;
  if 2 <? n then
    rest <~ lift (slice_from_1 inputs) ;;
    raise (CliError [VFormat "too many args %s" rest])
  else
    keyname <~ (if n =? 1 then ret (runtime_keyid ctx)
                else lift (x <?- item inputs 1 ;; as_str x)) ;;
    log INFO (LText ("start to generate outer runtime key " ++ dq ++ "%s" ++ dq)
                [VStr keyname]) ;;;
    data <~ extern (GenerateRuntimeKey keyname) ;;
    output <~ lift (as_str (dict_get options "output" (VStr "dist"))) ;;
    extern (Makedirs output) ;;;
    let target := path_join env output keyname in
    log INFO (LText "write %s" [VStr target]) ;;;
    extern (WriteFile target data) ;;;
    log INFO (LText "generate outer runtime key OK" []).

Definition _cmd_gen_runtime (ctx : Context) (options : Options) : M unit :=
  inputs <~ lift (getitem options "inputs") ;;
  n <~ lift (py_len inputs) ;;
  if 1 <? n then
    rest <~ lift (slice_from_1 inputs) ;;
    raise (CliError [VFormat "too many args %s" rest])
  else
    let output := dict_get options "output" (VStr "dist") in
    log INFO (LText "start to generate runtime package" []) ;;;
    extern (GenerateRuntime output) ;;;
    out <~ lift (as_str output) ;;
    let keyname := path_join env out (runtime_keyfile ctx) in
    log INFO (LText ("write " ++ dq ++ "%s" ++ dq) [VStr keyname]) ;;;
    extern (WriteFile keyname (runtime_key ctx)) ;;;
    log INFO (LText ("generate runtime package to " ++ dq ++ "%s" ++ dq ++ " OK")
                [output]).

Definition check_gen_context (ctx : Context) : M unit :=
  (if truthy (runtime_platforms ctx) then
     if truthy (enable_themida ctx)
        && negb (startswith (pyarmor_platform ctx) "win")
     then raise (CliError [VStr "--enable_themida only works for Windows"])
     else ret tt
   else ret tt) ;;;
  no_runtime <~ lift (getitem (cmd_options ctx) "no_runtime") ;;
  (if truthy no_runtime && negb (bool_decide (is_Some (outer_given ctx)))
   then raise (CliError [VStr "--no_runtime need pass outer key by --outer"])
   else ret tt) ;;;
  match outer_given ctx with
  | Some outer =>
      if path_exists env outer then
        let keyname := path_join env outer (runtime_keyfile ctx) in
        if negb (path_exists env keyname)
        then raise (CliError [VStr ("no runtime key in " ++ dq ++ "%s" ++ dq);
                              VStr outer])
        else ret tt
      else
        fun s =>
          match extern (ReadOuterInfo outer) s with
          | (s', Raise (FileNotFoundError _)) =>
              (s', Raise (CliError
                     [VStr ("no outer key " ++ dq ++ "%s" ++ dq
                            ++ " found, please generated it by " ++ dq
                            ++ "pyarmor gen key" ++ dq);
                      VStr outer]))
          | (s', Raise e) => (s', Raise e)
          | (s', Ok _) => (s', Ok tt)
          end
  | None => ret tt
  end.

Definition cmd_gen (ctx : Context) (args : Namespace) : M unit :=
  options <~ lift (format_gen_args ctx args) ;;
  log DEBUG (LDict "command options: %s" options) ;;;
  extern (CtxPush options) ;;;
  let ctx := push env ctx options in
  check_gen_context ctx ;;;
  extern NewBuilder ;;;
  inputs <~ lift (getattr args "inputs") ;;
  tok <~ lift (x <?- item inputs 0 ;; as_str x) ;;
  if str_in (str_lower env tok) ["key"; "k"] then
    _cmd_gen_key ctx options
  else if str_in (str_lower env tok) ["runtime"; "run"; "r"] then
    _cmd_gen_runtime ctx options
  else
    pack <~ lift (getattr args "pack") ;;
    extern (Process options pack) ;;;
    ret tt.

Definition cmd_cfg (ctx : Context) (args : Namespace) : M unit :=
  scope <~ lift (getattr args "scope") ;;
  let scope := if truthy scope then "global" else "local" in
  encoding <~ lift (getattr args "encoding") ;;
  extern (NewConfiger encoding) ;;;
  clear <~ lift (getattr args "clear") ;;
  name <~ (if truthy clear then ret "clear"
           else remove <~ lift (getattr args "remove") ;;
                ret (if truthy remove then "remove" else "run")) ;;
  section <~ lift (getattr args "section") ;;
  options <~ lift (getattr args "options") ;;
  pname <~ lift (getattr args "name") ;;
  extern (ConfigerCall name section options (String.eqb scope "local") pname) ;;;
  ret tt.

Definition cmd_reg (ctx : Context) (args : Namespace) : M unit :=
  regfile <~ lift (getattr args "regfile") ;;
  regname <~ lift (getattr args "regname") ;;
  let regname := if truthy regname then regname else VStr "" in
  product <~ lift (getattr args "product") ;;
  let product := if truthy product then product else VStr "non-profits" in
  dry <~ lift (getattr args "dry") ;;
  extern (NewRegister (truthy dry)) ;;;
  extern RegisterCheckArgs ;;;
  upgrade <~ lift (getattr args "upgrade") ;;
  let meth := if truthy upgrade then "upgrade" else "register" in
  extern (RegisterCall meth regfile regname product) ;;;
  log INFO (LText "\n%s" [VStr "reg"]).

(** [log_settings].  The debug log is taken to be writable: what happens
    when it cannot be opened is not part of this model. *)
Definition log_settings (ctx : Context) (args : Namespace) : M unit :=
  debug <~ lift (getattr args "debug") ;;
  (if truthy debug then
     fun s =>
       let s := set_root_level DEBUG s in
       let s := open_logfile (debug_logfile ctx) s in
       let handler := FileHandler (debug_logfile ctx) "%(asctime)s %(message)s" DEBUG in
       (add_root_handler handler s, Ok tt)
   else ret tt) ;;;
  silent <~ lift (getattr args "silent") ;;
  if truthy silent then fun s => (set_root_level 100 s, Ok tt) else ret tt.

Definition print_version (ctx : Context) : M unit :=
  extern PrintVersion ;;; ret tt.

Definition get_home (args : Namespace) : result string :=
  h <?- getattr args "home" ;;
  home <?- (if truthy h then as_str h
            else Ok (default "" (getenv env "PYARMOR_HOME"))) ;;
  let home := if String.eqb home "" then path_join env "~" ".pyarmor" else home in
  Ok (expand_path env home).

(** [args.func(ctx, args)] *)
Definition call_func (f : value) (ctx : Context) (args : Namespace) : M unit :=
  match f with
  | VFunc name =>
      if String.eqb name "cmd_gen" then cmd_gen ctx args
      else if String.eqb name "cmd_cfg" then cmd_cfg ctx args
      else if String.eqb name "cmd_reg" then cmd_reg ctx args
      else raise (TypeError "object is not callable")
  | _ => raise (TypeError "object is not callable")
  end.

Definition main_entry (argv : list string) : M unit :=
  args <~ lift (parse_args env argv) ;;
  let '(major, minor, micro) := python_version env in
  if (major =? 2) || (minor <? 7) then
    raise (CliError [VStr "only Python 3.7+ is supported now"])
  else
    home <~ lift (get_home args) ;;
    extern (NewContext home) ;;;
    let ctx := new_context env home in
    log_settings ctx args ;;;
    version <~ lift (getattr args "version") ;;
    (if truthy version then print_version ctx ;;; raise (SystemExit 0)
     else ret tt) ;;;
    interactive <~ lift (getattr args "interactive") ;;
    if truthy interactive then
      extern ShellCmdloop ;;; ret tt
    else
      log INFO (LText "Python %d.%d.%d" [VInt major; VInt minor; VInt micro]) ;;;
      log INFO (LText "Pyarmor %s" [VStr (version_info ctx)]) ;;;
      log DEBUG (LText "native platform %s" [VStr (native_platform ctx)]) ;;;
      log DEBUG (LText "home path: %s" [VStr home]) ;;;
      match args !! "func" with
      | Some f => call_func f ctx args
      | None => extern PrintHelp ;;; ret tt
      end.

(** [log_exception]: the pointer line, then the error log.  The
    constructor of the file handler raises [OSError] when the file cannot
    be opened; nothing has been set up on the logger [Pyarmor.Error] by
    then. *)
Definition log_exception (e : exn) : M unit :=
  fun s =>
    let s := logger_log CRITICAL
               (LText "unknown error, please check pyarmor.error.log" []) s in
    if log_opens env error_logfile then
      let s := open_logfile error_logfile s in
      let handler := FileHandler error_logfile error_logfmt 0 in
      let s := set_error_propagate false s in
      let s := add_error_handler NullHandler s in
      let s := add_error_handler handler s in
      (error_log_exception e s, Ok tt)
    else (s, Raise (OtherException "OSError" error_logfile)).

(** The [try] statement of [main], entered in the state [s0]: the final
    state and the exit status of the process.  A [SystemExit] is not an
    [Exception] and ends the process with its own code; an exception
    raised inside the handler is not caught by anything, and the
    interpreter exits with status 1. *)
Definition main_from (s0 : Sys) (argv : list string) : Sys * Z :=
  match main_entry argv s0 with
  | (s, Ok _) => (s, 0)
  | (s, Raise e) =>
      if is_Exception e then
        match log_exception e s with
        | (s, Ok _) => (logger_log ERROR (LExn e) s, 2)
        | (s, Raise _) => (s, 1)
        end
      else
        match e with
        | SystemExit code => (s, code)
        | _ => (s, 1)
        end
  end.

(** [main] in a working directory that holds no log file. *)
Definition main (argv : list string) : Sys * Z := main_from basicConfig argv.

End Program.

(** * Properties *)

(** ** The options normalizer *)

(** What the first loop leaves under a name it copies. *)
Definition copied (args : Namespace) (x : string) (before : option value)
  : option value :=
  match args !! x with
  | Some v => if is_None v then before else Some v
  | None => before
  end.

Lemma copied_idem args x d : copied args x (copied args x d) = copied args x d.
Proof. unfold copied. destruct (args !! x) as [v|]; [destruct (is_None v)|]; done. Qed.

Lemma copy_set_other args names : forall acc options x,
  copy_set args names acc = Ok options -> x ∉ names -> options !! x = acc !! x.
Proof.
  induction names as [|y names IH]; intros acc options x H Hx; simpl in H.
  - by inversion H.
  - apply not_elem_of_cons in Hx as [Hxy Hx].
    unfold getattr in H. destruct (args !! y) as [v|]; [simpl in H|discriminate].
    rewrite (IH _ _ _ H Hx). destruct (is_None v); [done|].
    by rewrite lookup_insert_ne.
Qed.

Lemma copy_set_copied args names : forall acc options x,
  copy_set args names acc = Ok options -> x ∈ names ->
  options !! x = copied args x (acc !! x).
Proof.
  induction names as [|y names IH]; intros acc options x H Hx; simpl in H.
  - by apply elem_of_nil in Hx.
  - unfold getattr in H. destruct (args !! y) as [v|] eqn:Hy; [simpl in H|discriminate].
    destruct (decide (x ∈ names)) as [Hin|Hout].
    + rewrite (IH _ _ _ H Hin).
      destruct (decide (x = y)) as [->|Hne].
      * destruct (is_None v) eqn:Hv; [done|].
        rewrite lookup_insert_eq. unfold copied. by rewrite Hy, Hv.
      * destruct (is_None v); [done|]. by rewrite lookup_insert_ne.
    + apply elem_of_cons in Hx as [->|Hx]; [|done].
      rewrite (copy_set_other _ _ _ _ _ H Hout).
      unfold copied. rewrite Hy. destruct (is_None v) eqn:Hv; [done|].
      by rewrite lookup_insert_eq.
Qed.

Lemma copy_set_defined args names : forall acc options x,
  copy_set args names acc = Ok options -> x ∈ names -> is_Some (args !! x).
Proof.
  induction names as [|y names IH]; intros acc options x H Hx; simpl in H.
  - by apply elem_of_nil in Hx.
  - unfold getattr in H. destruct (args !! y) as [v|] eqn:Hy; [simpl in H|discriminate].
    apply elem_of_cons in Hx as [->|Hx]; [by eexists|]. by eapply IH.
Qed.

(** The loop stops at the first name the namespace does not have. *)
Lemma copy_set_missing args names : forall acc x,
  x ∈ names -> args !! x = None ->
  exists y, copy_set args names acc = Raise (AttributeError y).
Proof.
  induction names as [|y names IH]; intros acc x Hx Hnone; simpl.
  - by apply elem_of_nil in Hx.
  - unfold getattr. destruct (args !! y) as [v|] eqn:Hy; simpl; [|by eexists].
    apply elem_of_cons in Hx as [->|Hx]; [congruence|]. by eapply IH.
Qed.

(** The first of two optional entries that is present. *)
Definition or_else {A} (a b : option A) : option A :=
  match a with
  | Some _ => a
  | None => b
  end.

Definition names_feature (x : string) (l : list string) : bool :=
  existsb (fun f => String.eqb x ("enable_" ++ f)) l.

Lemma set_enables_lookup l : forall o x,
  set_enables o l !! x =
    if names_feature x l then Some (VBool true) else o !! x.
Proof.
  induction l as [|g l IH] using rev_ind; intros o x; [done|].
  unfold set_enables, names_feature. rewrite fold_left_app, existsb_app. simpl.
  rewrite orb_false_r.
  destruct (String.eqb x ("enable_" ++ g)) eqn:Hx.
  - apply String.eqb_eq in Hx as ->. rewrite lookup_insert_eq. by rewrite orb_true_r.
  - apply String.eqb_neq in Hx. rewrite lookup_insert_ne by done.
    rewrite orb_false_r. apply IH.
Qed.

(** The restrict level the forcing rule compares with 1. *)
Definition restrict_level (args : Namespace) : value :=
  match args !! "restrict_module" with
  | Some v => if is_None v then VInt 0 else v
  | None => VInt 0
  end.

Definition restrict_forces (args : Namespace) : bool :=
  match gt_int (restrict_level args) 1 with
  | Ok b => b
  | Raise _ => false
  end.

(** The features named by the repeatable [--enable] flag. *)
Definition enabled_features (args : Namespace) : list string :=
  match args !! "enables" with
  | Some v => if truthy v then match iter v with Ok l => l | Raise _ => [] end else []
  | None => []
  end.

(** The explicit relative-import prefix, when it counts as given. *)
Definition relative_prefix (args : Namespace) : option value :=
  match args !! "relative" with
  | Some v => if truthy v then Some v else None
  | None => None
  end.

(** The entry the derived rules leave under a copied name, [None] when
    they leave the copied entry alone; later rules come first. *)
Definition derived_entry (args : Namespace) (x : string) : option value :=
  or_else
    match relative_prefix args with
    | Some rel => if String.eqb x "relative_import" then Some rel else None
    | None => None
    end
    (or_else
       (if names_feature x (enabled_features args) then Some (VBool true) else None)
       (if String.eqb x "mix_name" && restrict_forces args then Some (VInt 1) else None)).

Lemma cond_insert_ne (b : bool) (k x : string) (v : value) (o : Options) :
  x <> k -> (if b then <[k := v]> o else o) !! x = o !! x.
Proof. intros Hne. destruct b; [by rewrite lookup_insert_ne|done]. Qed.

Lemma cond_insert_lookup (b : bool) (k x : string) (v : value) (o : Options) :
  (if b then <[k := v]> o else o) !! x
  = or_else (if String.eqb x k && b then Some v else None) (o !! x).
Proof.
  destruct (String.eqb x k) eqn:Hx; simpl.
  - apply String.eqb_eq in Hx as ->. destruct b; [by rewrite lookup_insert_eq|done].
  - apply String.eqb_neq in Hx. by rewrite cond_insert_ne.
Qed.

Lemma option_names_not_late x :
  x ∈ gen_option_names ->
  x <> "wrap_mode" /\ x <> "includes" /\ x <> "excludes".
Proof.
  intros Hx. apply list_elem_of_In in Hx.
  repeat split; intros ->; simpl in Hx; intuition discriminate.
Qed.

Lemma rbind_Ok {A B} (r : result A) (k : A -> result B) (b : B) :
  rbind r k = Ok b -> exists a, r = Ok a /\ k a = Ok b.
Proof. destruct r as [a|e]; simpl; [by exists a|done]. Qed.

Ltac inv_rbind H x Hx :=
  apply rbind_Ok in H as (x & Hx & H).

Lemma getattr_Ok args x v : getattr args x = Ok v -> args !! x = Some v.
Proof. unfold getattr. destruct (args !! x); [by intros [= ->]|done]. Qed.

Lemma copy_set_restrict args o1 :
  copy_set args gen_option_names ∅ = Ok o1 ->
  dict_get o1 "restrict_module" (VInt 0) = restrict_level args.
Proof.
  intros H. unfold dict_get, restrict_level.
  rewrite (copy_set_copied _ _ _ _ "restrict_module" H).
  - unfold copied. rewrite lookup_empty.
    destruct (args !! "restrict_module") as [v|]; [by destruct (is_None v)|done].
  - apply list_elem_of_In. simpl. tauto.
Qed.

(** The body of the normalizer, as an equation between functions: it is
    checked without running the loop over the names. *)
Lemma format_gen_args_eq :
  format_gen_args = fun (ctx : Context) (args : Namespace) =>
  options <?- copy_set args gen_option_names ∅ ;;
  let restrict := dict_get options "restrict_module" (VInt 0) in
  b <?- gt_int restrict 1 ;;
  let options := if b then <["mix_name" := VInt 1]> options else options in
  enables <?- getattr args "enables" ;;
  options <?- (if truthy enables
               then l <?- iter enables ;; Ok (set_enables options l)
               else Ok options) ;;
  relative <?- getattr args "relative" ;;
  let options := if truthy relative
                 then <["relative_import" := relative]> options else options in
  no_wrap <?- getattr args "no_wrap" ;;
  let options := if truthy no_wrap
                 then <["wrap_mode" := VInt 0]> options else options in
  includes <?- getattr args "includes" ;;
  options <?- (if truthy includes
               then l <?- iter includes ;; Ok (<["includes" := VStr (join " " l)]> options)
               else Ok options) ;;
  excludes <?- getattr args "excludes" ;;
  options <?- (if truthy excludes
               then l <?- iter excludes ;; Ok (<["excludes" := VStr (join " " l)]> options)
               else Ok options) ;;
  Ok options.
Proof. reflexivity. Qed.

(** The returned mapping, entry by entry, for the copied names. *)
Lemma format_gen_args_lookup ctx args options x :
  format_gen_args ctx args = Ok options ->
  x ∈ gen_option_names ->
  options !! x = or_else (derived_entry args x) (copied args x None).
Proof.
  intros H Hx. rewrite format_gen_args_eq in H. cbv beta in H.
  inv_rbind H o1 Hcopy.
  pose proof (copy_set_copied _ _ _ _ _ Hcopy Hx) as Hx1.
  rewrite lookup_empty in Hx1.
  rewrite (copy_set_restrict _ _ Hcopy) in H.
  inv_rbind H b Hb. inv_rbind H enables Hen. inv_rbind H o3 Ho3.
  inv_rbind H relative Hrel. inv_rbind H no_wrap Hnw.
  inv_rbind H includes Hinc. inv_rbind H o6 Ho6.
  inv_rbind H excludes Hexc. inv_rbind H o7 Ho7.
  injection H as <-.
  destruct (option_names_not_late x Hx) as (Hw & Hi & He).
  apply getattr_Ok in Hen, Hrel.
  assert (o7 !! x = o6 !! x) as ->.
  { destruct (truthy excludes); [|by injection Ho7 as <-].
    inv_rbind Ho7 l Hl. injection Ho7 as <-. by rewrite lookup_insert_ne. }
  assert (o6 !! x = (if truthy relative
                     then <["relative_import" := relative]> o3 else o3) !! x) as ->.
  { destruct (truthy includes).
    - inv_rbind Ho6 l Hl. injection Ho6 as <-.
      rewrite lookup_insert_ne by done. by rewrite cond_insert_ne.
    - injection Ho6 as <-. by rewrite cond_insert_ne. }
  assert (o3 !! x =
            or_else
              (if names_feature x (enabled_features args)
               then Some (VBool true) else None)
              ((if b then <["mix_name" := VInt 1]> o1 else o1) !! x)) as Ho3x.
  { unfold enabled_features. rewrite Hen. destruct (truthy enables).
    - inv_rbind Ho3 l Hl. injection Ho3 as <-. rewrite Hl, set_enables_lookup.
      by destruct (names_feature x l).
    - by injection Ho3 as <-. }
  rewrite cond_insert_lookup, Ho3x, cond_insert_lookup, Hx1.
  unfold derived_entry, relative_prefix, restrict_forces.
  rewrite Hrel, Hb.
  destruct (truthy relative), (String.eqb x "relative_import"),
    (names_feature x (enabled_features args)); simpl; try done;
    by destruct (String.eqb x "mix_name" && b).
Qed.

(** [enable_<f>] never collides with a name that does not start with
    the letter e. *)
Lemma names_feature_other c r l :
  c <> "e"%char -> names_feature (String c r) l = false.
Proof.
  intros Hc. unfold names_feature. induction l as [|f l IH]; [done|].
  cbn [existsb]. rewrite IH, orb_false_r.
  change ("enable_" ++ f) with (String "e" ("nable_" ++ f)).
  cbn [String.eqb]. by apply Ascii.eqb_neq in Hc as ->.
Qed.

(** Every namespace the parser builds lacks the attribute the loop asks
    for under the name [obj_module]: the normalizer raises before it
    returns anything. *)
Lemma format_gen_args_parsed ctx m g :
  format_gen_args ctx (gen_namespace m g) = Raise (AttributeError "obj_module").
Proof. vm_compute. reflexivity. Qed.

(** A flag counts as supplied when its attribute holds something else
    than [None]. *)
Definition supplied (args : Namespace) (x : string) : bool :=
  match args !! x with
  | Some v => negb (is_None v)
  | None => false
  end.

Lemma copied_supplied args x :
  is_Some (copied args x None) <-> supplied args x = true.
Proof.
  unfold copied, supplied. destruct (args !! x) as [v|]; simpl.
  - destruct (is_None v); simpl; split; intros H; try done; by inversion H.
  - split; intros H; [by inversion H|done].
Qed.

(** Closed facts about sample inputs are settled by evaluation. *)
Ltac by_computation := vm_compute; reflexivity.
Ltac conj_by_computation :=
  repeat match goal with |- _ /\ _ => split end; by_computation.

(** ** Sample inputs *)

Definition no_main_flags : MainFlags :=
  {| m_version := false; m_silent := false; m_debug := false;
     m_interactive := false; m_home := None |}.

(** [pyarmor gen [--no-runtime] [--restrict N] [-i] [--relative PREFIX] INPUTS] *)
Definition sample_flags (no_runtime : bool) (restrict : option Z)
    (relative_import : bool) (relative : option string)
    (inputs : list string) : GenFlags :=
  {| g_output := None; g_pack := None; g_no_runtime := no_runtime;
     g_recursive := false; g_findall := false;
     g_includes := []; g_excludes := [];
     g_obf_module := None; g_obf_code := None; g_no_wrap := false;
     g_mix_str := false; g_mix_name := false;
     g_enable_bcc := false; g_enable_rft := false; g_enable_jit := false;
     g_enable_themida := false; g_assert_call := false;
     g_assert_import := false; g_enables := [];
     g_restrict_module := restrict; g_relative_import := relative_import;
     g_relative := relative; g_platforms := []; g_outer := None;
     g_expired := None; g_period := None; g_devices := [];
     g_bind_interp := None; g_hook := None; g_inputs := inputs |}.

Definition sample_args (g : GenFlags) : Namespace :=
  gen_namespace no_main_flags g.

(** The same namespace, given the attribute the first loop asks for. *)
Definition with_obj_module (args : Namespace) : Namespace :=
  <["obj_module" := VNone]> args.

Definition sample_ctx : Context :=
  {| cmd_options := ∅; runtime_platforms := VNone;
     enable_themida := VBool false;
     pyarmor_platform := "linux.x86_64"; native_platform := "linux.x86_64";
     runtime_outer := None; runtime_keyfile := "pyarmor.rkey";
     runtime_keyid := "pyarmor.ikey"; runtime_key := VStr "<key>";
     debug_logfile := "pyarmor.debug.log"; version_info := "8.0.1" |}.

(** The mapping a run of the normalizer returned (empty if it raised). *)
Definition returned (r : result Options) : Options :=
  match r with
  | Ok o => o
  | Raise _ => ∅
  end.

(** [pyarmor gen --restrict 2 foo.py] *)
Definition restrict2_flags : GenFlags :=
  sample_flags false (Some 2) false None ["foo.py"].
Definition restrict2_args : Namespace :=
  with_obj_module (sample_args restrict2_flags).
Definition restrict2_options : Options :=
  returned (format_gen_args sample_ctx restrict2_args).

(** [pyarmor gen -i --relative PREFIX foo.py] *)
Definition relative_flags (prefix : string) : GenFlags :=
  sample_flags false None true (Some prefix) ["foo.py"].
Definition relative_args (prefix : string) : Namespace :=
  with_obj_module (sample_args (relative_flags prefix)).
Definition relative_options (prefix : string) : Options :=
  returned (format_gen_args sample_ctx (relative_args prefix)).

(** ** Entries of the normalized mapping *)

(** Whenever the normalizer returns a mapping, a
    name of its allow-list has an entry exactly when its attribute is not
    [None] or one of the derived rules wrote it (restrict level above 1
    for [mix_name], a non-empty [--relative] for [relative_import],
    [--enable f] for [enable_f]). *)
Theorem normalized_entry_iff ctx args options x :
  format_gen_args ctx args = Ok options ->
  x ∈ gen_option_names ->
  is_Some (options !! x)
  <-> supplied args x = true \/ is_Some (derived_entry args x).
Proof.
  intros H Hx. rewrite (format_gen_args_lookup _ _ _ _ H Hx).
  rewrite <- copied_supplied.
  destruct (derived_entry args x) as [d|]; simpl.
  - split; [intros _; right|]; by eexists.
  - split; [by left|]. intros [Hc|Hd]; [done|by inversion Hd].
Qed.

(** [pyarmor gen --restrict 1 -i foo.py] *)
Definition supplied_flags : GenFlags :=
  sample_flags false (Some 1) true None ["foo.py"].

(** C3 at [pyarmor gen --restrict 1 -i foo.py]: two allow-listed flags
    are supplied and the claim expects a mapping with their entries; the
    normalizer returns no mapping at all, it raises [AttributeError] on
    the misspelt attribute name in its first loop. *)
Theorem supplied_flags_not_normalized :
  wf_gen_flags supplied_flags = true
  /\ supplied (sample_args supplied_flags) "restrict_module" = true
  /\ supplied (sample_args supplied_flags) "relative_import" = true
  /\ format_gen_args sample_ctx (sample_args supplied_flags)
     = Raise (AttributeError "obj_module").
Proof. conj_by_computation. Qed.

Lemma normalized_entry_iff_witness :
  format_gen_args sample_ctx restrict2_args = Ok restrict2_options
  /\ "mix_name" ∈ gen_option_names
  /\ (is_Some (restrict2_options !! "mix_name")
      <-> supplied restrict2_args "mix_name" = true
          \/ is_Some (derived_entry restrict2_args "mix_name")).
Proof.
  assert (H : format_gen_args sample_ctx restrict2_args = Ok restrict2_options)
    by by_computation.
  assert (Hin : "mix_name" ∈ gen_option_names)
    by (apply list_elem_of_In; simpl; tauto).
  split; [exact H|]. split; [exact Hin|].
  exact (normalized_entry_iff sample_ctx restrict2_args restrict2_options
           "mix_name" H Hin).
Defined.

(** ** The restrict rule *)

(** What the restrict rule does to the mapping when the normalizer
    returns one. *)
Lemma restrict_rule_when_returned ctx args options :
  format_gen_args ctx args = Ok options ->
  (gt_int (restrict_level args) 1 = Ok true ->
   options !! "mix_name" = Some (VInt 1))
  /\ (gt_int (restrict_level args) 1 = Ok false ->
      options !! "mix_name" = copied args "mix_name" None).
Proof.
  intros H.
  assert (Hin : "mix_name" ∈ gen_option_names)
    by (apply list_elem_of_In; simpl; tauto).
  rewrite (format_gen_args_lookup _ _ _ _ H Hin).
  unfold derived_entry, restrict_forces.
  rewrite names_feature_other by discriminate.
  destruct (relative_prefix args); split; intros ->; reflexivity.
Qed.

(** C4 at [pyarmor gen --restrict 2 foo.py]: the claim expects a mapping
    whose [mix_name] entry is true; the normalizer raises
    [AttributeError] on the misspelt attribute name before it reaches the
    restrict rule. *)
Theorem restrict_two_raises :
  format_gen_args sample_ctx (sample_args restrict2_flags)
  = Raise (AttributeError "obj_module").
Proof. apply format_gen_args_parsed. Qed.

(** ** The relative-import entry *)

(** Whenever the normalizer returns a mapping, a
    non-empty explicit prefix is the [relative_import] entry, whatever
    the shorthand; with the shorthand and no prefix, or an empty one, the
    entry is the marker 1. *)
Theorem relative_import_entry ctx args options :
  format_gen_args ctx args = Ok options ->
  (forall p, args !! "relative" = Some (VStr p) -> p <> "" ->
             options !! "relative_import" = Some (VStr p))
  /\ (args !! "relative_import" = Some (VInt 1) ->
      args !! "relative" = Some VNone \/ args !! "relative" = Some (VStr "") ->
      options !! "relative_import" = Some (VInt 1)).
Proof.
  intros H.
  assert (Hin : "relative_import" ∈ gen_option_names)
    by (apply list_elem_of_In; simpl; tauto).
  rewrite (format_gen_args_lookup _ _ _ _ H Hin).
  unfold derived_entry, relative_prefix, copied.
  rewrite names_feature_other by discriminate.
  split.
  - intros p -> Hp. simpl. apply String.eqb_neq in Hp as ->. reflexivity.
  - intros -> [-> | ->]; reflexivity.
Qed.

(** C9 at [pyarmor gen -i --relative pkg foo.py]: shorthand and prefix
    are both supplied and the claim expects a mapping whose
    [relative_import] entry is the prefix; the normalizer raises
    [AttributeError] on the misspelt attribute name before it reaches
    either rule. *)
Theorem relative_prefix_not_normalized :
  wf_gen_flags (relative_flags "pkg") = true
  /\ sample_args (relative_flags "pkg") !! "relative_import" = Some (VInt 1)
  /\ sample_args (relative_flags "pkg") !! "relative" = Some (VStr "pkg")
  /\ format_gen_args sample_ctx (sample_args (relative_flags "pkg"))
     = Raise (AttributeError "obj_module").
Proof. conj_by_computation. Qed.

Lemma relative_import_entry_witness :
  format_gen_args sample_ctx (relative_args "pkg") = Ok (relative_options "pkg")
  /\ relative_args "pkg" !! "relative" = Some (VStr "pkg")
  /\ "pkg" <> ""
  /\ relative_options "pkg" !! "relative_import" = Some (VStr "pkg").
Proof.
  assert (H : format_gen_args sample_ctx (relative_args "pkg")
              = Ok (relative_options "pkg")) by by_computation.
  assert (Hrel : relative_args "pkg" !! "relative" = Some (VStr "pkg"))
    by by_computation.
  assert (Hne : "pkg" <> "") by discriminate.
  split; [exact H|]. split; [exact Hrel|]. split; [exact Hne|].
  exact (proj1 (relative_import_entry sample_ctx (relative_args "pkg")
                  (relative_options "pkg") H) "pkg" Hrel Hne).
Defined.

(** ** The cross-field validator *)

Definition themida_error : exn :=
  CliError [VStr "--enable_themida only works for Windows"].

Definition no_runtime_error : exn :=
  CliError [VStr "--no_runtime need pass outer key by --outer"].

Definition no_key_error (outer : string) : exn :=
  CliError [VStr ("no runtime key in " ++ dq ++ "%s" ++ dq); VStr outer].

Definition no_outer_error (outer : string) : exn :=
  CliError [VStr ("no outer key " ++ dq ++ "%s" ++ dq
                  ++ " found, please generated it by " ++ dq
                  ++ "pyarmor gen key" ++ dq);
            VStr outer].

(** The condition under which the first rule raises. *)
Definition themida_rejected (ctx : Context) : bool :=
  truthy (runtime_platforms ctx)
  && (truthy (enable_themida ctx)
      && negb (startswith (pyarmor_platform ctx) "win")).

Definition without_themida (ctx : Context) : Context :=
  {| cmd_options := cmd_options ctx;
     runtime_platforms := runtime_platforms ctx;
     enable_themida := VBool false;
     pyarmor_platform := pyarmor_platform ctx;
     native_platform := native_platform ctx;
     runtime_outer := runtime_outer ctx;
     runtime_keyfile := runtime_keyfile ctx;
     runtime_keyid := runtime_keyid ctx;
     runtime_key := runtime_key ctx;
     debug_logfile := debug_logfile ctx;
     version_info := version_info ctx |}.

(** What the third rule does with a given outer key reference. *)
Definition outer_key_rule (env : Env) (ctx : Context) (outer : string) : M unit :=
  fun s =>
    if path_exists env outer then
      if path_exists env (path_join env outer (runtime_keyfile ctx))
      then (s, Ok tt)
      else (s, Raise (no_key_error outer))
    else
      match answer env (ReadOuterInfo outer) with
      | Ok _ => (record_call (ReadOuterInfo outer) s, Ok tt)
      | Raise (FileNotFoundError _) =>
          (record_call (ReadOuterInfo outer) s, Raise (no_outer_error outer))
      | Raise e => (record_call (ReadOuterInfo outer) s, Raise e)
      end.

Ltac run :=
  unfold bind, lift, ret, raise, extern, log; simpl.

Lemma check_gen_context_rejected env ctx s :
  themida_rejected ctx = true ->
  check_gen_context env ctx s = (s, Raise themida_error).
Proof.
  unfold themida_rejected, check_gen_context. intros H.
  apply andb_true_iff in H as [-> H]. run. by rewrite H.
Qed.

(** Past the first rule, the validator is the second and third rules. *)
Lemma check_gen_context_accepted env ctx s :
  themida_rejected ctx = false ->
  check_gen_context env ctx s =
    match cmd_options ctx !! "no_runtime" with
    | None => (s, Raise (KeyError "no_runtime"))
    | Some v =>
        match outer_given ctx with
        | None => if truthy v then (s, Raise no_runtime_error) else (s, Ok tt)
        | Some outer => outer_key_rule env ctx outer s
        end
    end.
Proof.
  unfold themida_rejected, check_gen_context. intros H. run.
  assert ((if truthy (runtime_platforms ctx)
           then if truthy (enable_themida ctx)
                   && negb (startswith (pyarmor_platform ctx) "win")
                then (s, Raise themida_error) else (s, Ok tt)
           else (s, @Ok unit tt)) = (s, Ok tt)) as Hrule.
  { destruct (truthy (runtime_platforms ctx)); [|done]. simpl in H. by rewrite H. }
  unfold themida_error in Hrule.
  destruct (truthy (runtime_platforms ctx));
    [destruct (truthy (enable_themida ctx)
               && negb (startswith (pyarmor_platform ctx) "win"));
       [discriminate|]|];
    unfold getitem;
    (destruct (cmd_options ctx !! "no_runtime") as [v|]; [|done]);
    (destruct (outer_given ctx) as [outer|] eqn:Houter; simpl;
     [rewrite andb_false_r; unfold outer_key_rule;
      destruct (path_exists env outer);
      [by destruct (path_exists env (path_join env outer (runtime_keyfile ctx)))
      |destruct (answer env (ReadOuterInfo outer)) as [a|[]]; reflexivity]
     |rewrite andb_true_r; by destruct (truthy v)]).
Qed.

(** C5, as the code has it: the Windows-only rule raises exactly when
    target platforms are configured, the toggle is set and the platform
    the context reports does not start with [win]; it raises before
    anything else happens.  In every other case the toggle has no
    influence on the validation. *)
Theorem themida_rule env ctx s :
  check_gen_context env ctx s =
    if themida_rejected ctx then (s, Raise themida_error)
    else check_gen_context env (without_themida ctx) s.
Proof.
  destruct (themida_rejected ctx) eqn:H.
  - by apply check_gen_context_rejected.
  - rewrite check_gen_context_accepted by done.
    rewrite (check_gen_context_accepted env (without_themida ctx)).
    + reflexivity.
    + unfold themida_rejected. simpl. apply andb_false_r.
Qed.

(** Logging never touches the record of outside calls. *)
Lemma calls_handle h r s : calls (handle h r s) = calls s.
Proof. destruct h as [fmt|path fmt level|]; simpl; [done| |done]. by destruct (level <=? lr_level r). Qed.

Lemma calls_call_handlers hs r s : calls (call_handlers hs r s) = calls s.
Proof.
  unfold call_handlers. revert s.
  induction hs as [|h hs IH]; intros s; simpl; [done|].
  by rewrite IH, calls_handle.
Qed.

Lemma calls_logger_log level msg s : calls (logger_log level msg s) = calls s.
Proof.
  unfold logger_log. destruct (root_level s <=? level); [|done].
  apply calls_call_handlers.
Qed.

(** ** Sample environments *)

(** A sample overlay: the new options are laid over the stored ones and
    the accessors the validator reads follow the merged mapping. *)
Definition sample_push (ctx : Context) (options : Options) : Context :=
  let merged := options ∪ cmd_options ctx in
  {| cmd_options := merged;
     runtime_platforms := dict_get merged "platforms" VNone;
     enable_themida := dict_get merged "enable_themida" (VBool false);
     pyarmor_platform := pyarmor_platform ctx;
     native_platform := native_platform ctx;
     runtime_outer := match merged !! "outer" with
                      | Some (VStr s) => Some s
                      | _ => None
                      end;
     runtime_keyfile := runtime_keyfile ctx;
     runtime_keyid := runtime_keyid ctx;
     runtime_key := runtime_key ctx;
     debug_logfile := debug_logfile ctx;
     version_info := version_info ctx |}.

(** Python 3.11 on a machine where the paths listed in [present] exist,
    where the command line parses to [parsed] and every collaborator
    answers as [answers] says. *)
Definition sample_env (parsed : result Namespace) (present : list string)
    (answers : call -> result value) : Env :=
  {| parse_args := fun _ => parsed;
     python_version := (3, 11, 0);
     getenv := fun _ => None;
     expand_path := fun p => p;
     path_join := fun a b => a ++ "/" ++ b;
     path_exists := fun p => str_in p present;
     new_context := fun _ => sample_ctx;
     push := sample_push;
     answer := answers;
     str_lower := lower;
     log_opens := fun _ => true |}.

Definition all_fine : call -> result value := fun _ => Ok VNone.

(** No registered key metadata: [read_outer_info] raises
    [FileNotFoundError]. *)
Definition no_outer_info (c : call) : result value :=
  match c with
  | ReadOuterInfo name => Raise (FileNotFoundError name)
  | _ => Ok VNone
  end.

(** A damaged key file: [read_outer_info] raises something else. *)
Definition bad_outer_info (c : call) : result value :=
  match c with
  | ReadOuterInfo name => Raise (OtherException "ValueError" name)
  | _ => Ok VNone
  end.

Definition gen_env (present : list string) (answers : call -> result value) : Env :=
  sample_env (Raise (SystemExit 2)) present answers.

(** The environment of a [gen] command line that parses to the flags
    [g]. *)
Definition invocation_env (g : GenFlags) : Env :=
  sample_env (Ok (sample_args g)) [] all_fine.

(** The context of [pyarmor gen OPTIONS foo.py] after the overlay, on
    Linux: target platforms, the Themida toggle, [--no-runtime] and
    [--outer]. *)
Definition gen_ctx (platforms : list string) (themida no_runtime : bool)
    (outer : option string) : Context :=
  {| cmd_options := {["no_runtime" := VBool no_runtime]};
     runtime_platforms := if platforms is [] then VNone else VList platforms;
     enable_themida := VBool themida;
     pyarmor_platform := "linux.x86_64"; native_platform := "linux.x86_64";
     runtime_outer := outer; runtime_keyfile := "pyarmor.rkey";
     runtime_keyid := "pyarmor.ikey"; runtime_key := VStr "<key>";
     debug_logfile := "pyarmor.debug.log"; version_info := "8.0.1" |}.

(** C5 fails as stated at [pyarmor gen --enable-themida foo.py] on Linux
    with no target platform configured: the toggle is set, neither the
    reported nor the native platform is Windows, and validation passes. *)
Lemma themida_unchecked_without_platforms :
  truthy (enable_themida (gen_ctx [] true false None)) = true
  /\ startswith (pyarmor_platform (gen_ctx [] true false None)) "win" = false
  /\ startswith (native_platform (gen_ctx [] true false None)) "win" = false
  /\ check_gen_context (gen_env [] all_fine) (gen_ctx [] true false None) basicConfig
     = (basicConfig, Ok tt).
Proof. conj_by_computation. Qed.

(** ** Skipping the runtime package *)

(** The state in which [cmd_gen] starts the validation: the options are
    logged at debug level and the overlay is recorded. *)
Definition after_push (options : Options) (s : Sys) : Sys :=
  record_call (CtxPush options)
    (logger_log DEBUG (LDict "command options: %s" options) s).

Lemma calls_after_push options s :
  calls (after_push options s) = (calls s ++ [CtxPush options])%list.
Proof. unfold after_push. simpl. by rewrite calls_logger_log. Qed.

(** [cmd_gen] up to the validation. *)
Lemma cmd_gen_until_check env ctx args options a s :
  format_gen_args ctx args = Ok options ->
  answer env (CtxPush options) = Ok a ->
  cmd_gen env ctx args s =
    match check_gen_context env (push env ctx options) (after_push options s) with
    | (s', Ok _) =>
        (extern env NewBuilder ;;;
         inputs <~ lift (getattr args "inputs") ;;
         tok <~ lift (x <?- item inputs 0 ;; as_str x) ;;
         if str_in (str_lower env tok) ["key"; "k"] then
           _cmd_gen_key env (push env ctx options) options
         else if str_in (str_lower env tok) ["runtime"; "run"; "r"] then
           _cmd_gen_runtime env (push env ctx options) options
         else
           pack <~ lift (getattr args "pack") ;;
           extern env (Process options pack) ;;;
           ret tt) s'
    | (s', Raise e) => (s', Raise e)
    end.
Proof.
  intros H Ha. unfold cmd_gen. unfold bind at 1. unfold lift at 1. rewrite H.
  unfold bind at 1. unfold log at 1. unfold bind at 1. unfold extern at 1.
  rewrite Ha. unfold bind at 1. reflexivity.
Qed.

Lemma check_gen_context_no_outer env ctx v s :
  cmd_options ctx !! "no_runtime" = Some v ->
  truthy v = true ->
  outer_given ctx = None ->
  check_gen_context env ctx s =
    (s, Raise (if themida_rejected ctx then themida_error else no_runtime_error)).
Proof.
  intros Hv Ht Ho. destruct (themida_rejected ctx) eqn:H.
  - by apply check_gen_context_rejected.
  - rewrite check_gen_context_accepted by done. by rewrite Hv, Ho, Ht.
Qed.

(** When the normalizer returns a mapping and the
    pushed context has [no_runtime] set and no outer key reference,
    [cmd_gen] raises a [CliError] -- the one of the Windows-only rule if
    that rule rejects the context, the one naming [--outer] otherwise --
    and the only outside call it has made is the overlay: no [Builder] is
    created. *)
Theorem no_runtime_needs_outer env ctx args options a v s :
  format_gen_args ctx args = Ok options ->
  answer env (CtxPush options) = Ok a ->
  cmd_options (push env ctx options) !! "no_runtime" = Some v ->
  truthy v = true ->
  outer_given (push env ctx options) = None ->
  cmd_gen env ctx args s =
    (after_push options s,
     Raise (if themida_rejected (push env ctx options)
            then themida_error else no_runtime_error))
  /\ calls (after_push options s) = (calls s ++ [CtxPush options])%list.
Proof.
  intros H Ha Hv Ht Ho. split; [|apply calls_after_push].
  rewrite (cmd_gen_until_check _ _ _ _ _ _ H Ha).
  by rewrite (check_gen_context_no_outer _ _ _ _ Hv Ht Ho).
Qed.

(** [pyarmor gen --no-runtime foo.py] *)
Definition no_runtime_flags : GenFlags :=
  sample_flags true None false None ["foo.py"].
Definition no_runtime_args : Namespace :=
  with_obj_module (sample_args no_runtime_flags).
Definition no_runtime_options : Options :=
  returned (format_gen_args sample_ctx no_runtime_args).

(** C6 at [pyarmor gen --no-runtime foo.py]: no outer key is given, so
    the claim expects the usage error that names [--outer]; [cmd_gen]
    ends with the [AttributeError] of the normalizer instead, before the
    options are pushed and the context validated, and the process exits
    with status 2 having called nothing but the creation of the
    context. *)
Theorem no_runtime_invocation_raises :
  g_no_runtime no_runtime_flags = true
  /\ g_outer no_runtime_flags = None
  /\ cmd_gen (invocation_env no_runtime_flags) sample_ctx
       (sample_args no_runtime_flags) basicConfig
     = (basicConfig, Raise (AttributeError "obj_module"))
  /\ (main (invocation_env no_runtime_flags) ["gen"; "--no-runtime"; "foo.py"]).2
     = 2
  /\ calls (main (invocation_env no_runtime_flags)
              ["gen"; "--no-runtime"; "foo.py"]).1
     = [NewContext "~/.pyarmor"].
Proof. conj_by_computation. Qed.

Lemma no_runtime_needs_outer_witness :
  format_gen_args sample_ctx no_runtime_args = Ok no_runtime_options
  /\ cmd_options (sample_push sample_ctx no_runtime_options) !! "no_runtime"
     = Some (VBool true)
  /\ outer_given (sample_push sample_ctx no_runtime_options) = None
  /\ cmd_gen (gen_env [] all_fine) sample_ctx no_runtime_args basicConfig
     = (after_push no_runtime_options basicConfig,
        Raise (if themida_rejected (sample_push sample_ctx no_runtime_options)
               then themida_error else no_runtime_error))
  /\ calls (after_push no_runtime_options basicConfig)
     = (calls basicConfig ++ [CtxPush no_runtime_options])%list.
Proof.
  assert (H : format_gen_args sample_ctx no_runtime_args = Ok no_runtime_options)
    by by_computation.
  assert (Hv : cmd_options (sample_push sample_ctx no_runtime_options)
               !! "no_runtime" = Some (VBool true)) by by_computation.
  assert (Ho : outer_given (sample_push sample_ctx no_runtime_options) = None)
    by by_computation.
  split; [exact H|]. split; [exact Hv|]. split; [exact Ho|].
  exact (no_runtime_needs_outer (gen_env [] all_fine) sample_ctx no_runtime_args
           no_runtime_options VNone (VBool true) basicConfig
           H eq_refl Hv eq_refl Ho).
Defined.

(** ** The outer key reference *)

(** C7, as the code has it: for a context with a non-empty outer key
    reference, the two earlier rules come first (a violated Windows-only
    rule raises its usage error, options without a [no_runtime] entry
    raise [KeyError]); past them validation is decided by the reference
    alone.  An existing path must hold the key file; a missing path is
    looked up as registered key metadata, where only a
    [FileNotFoundError] becomes the [CliError] that points to
    [pyarmor gen key] and any other exception is passed on as it is. *)
Theorem outer_key_validated env ctx outer s :
  outer_given ctx = Some outer ->
  check_gen_context env ctx s =
    if themida_rejected ctx then (s, Raise themida_error)
    else
      match cmd_options ctx !! "no_runtime" with
      | None => (s, Raise (KeyError "no_runtime"))
      | Some _ =>
          if path_exists env outer then
            if path_exists env (path_join env outer (runtime_keyfile ctx))
            then (s, Ok tt)
            else (s, Raise (no_key_error outer))
          else
            match answer env (ReadOuterInfo outer) with
            | Ok _ => (record_call (ReadOuterInfo outer) s, Ok tt)
            | Raise (FileNotFoundError _) =>
                (record_call (ReadOuterInfo outer) s, Raise (no_outer_error outer))
            | Raise e => (record_call (ReadOuterInfo outer) s, Raise e)
            end
      end.
Proof.
  intros Ho. destruct (themida_rejected ctx) eqn:Ht.
  - by apply check_gen_context_rejected.
  - rewrite check_gen_context_accepted by done. by rewrite Ho.
Qed.

(** C7 fails as stated at [--outer mykey] where [mykey] names no path
    and its registered metadata cannot be read: the failure of the
    lookup, here a [ValueError], is passed on unchanged, not turned into
    the usage error that points to the generating command. *)
Lemma outer_lookup_failure_passed_on :
  outer_given (gen_ctx [] false false (Some "mykey")) = Some "mykey"
  /\ path_exists (gen_env [] bad_outer_info) "mykey" = false
  /\ answer (gen_env [] bad_outer_info) (ReadOuterInfo "mykey")
     = Raise (OtherException "ValueError" "mykey")
  /\ is_CliError (OtherException "ValueError" "mykey") = false
  /\ check_gen_context (gen_env [] bad_outer_info)
       (gen_ctx [] false false (Some "mykey")) basicConfig
     = (record_call (ReadOuterInfo "mykey") basicConfig,
        Raise (OtherException "ValueError" "mykey")).
Proof. conj_by_computation. Qed.

Lemma outer_key_validated_witness :
  outer_given (gen_ctx [] false false (Some "keys")) = Some "keys"
  /\ themida_rejected (gen_ctx [] false false (Some "keys")) = false
  /\ path_exists (gen_env ["keys"] all_fine) "keys" = true
  /\ path_exists (gen_env ["keys"] all_fine) "keys/pyarmor.rkey" = false
  /\ check_gen_context (gen_env ["keys"] all_fine)
       (gen_ctx [] false false (Some "keys")) basicConfig
     = (basicConfig, Raise (no_key_error "keys")).
Proof.
  split; [reflexivity|]. split; [reflexivity|].
  split; [reflexivity|]. split; [reflexivity|].
  exact (outer_key_validated (gen_env ["keys"] all_fine)
           (gen_ctx [] false false (Some "keys")) "keys" basicConfig eq_refl).
Defined.

(** ** Which outside calls a computation makes *)

Lemma calls_record_call c s : calls (record_call c s) = (calls s ++ [c])%list.
Proof. reflexivity. Qed.

(** [m] adds to the record of outside calls only calls that satisfy [P]. *)
Definition adds_only {A} (P : call -> Prop) (m : M A) : Prop :=
  forall s, exists l, calls (m s).1 = (calls s ++ l)%list /\ Forall P l.

Lemma adds_only_lift {A} P (r : result A) : adds_only P (lift r).
Proof. intros s. exists []. simpl. by rewrite app_nil_r. Qed.

Lemma adds_only_ret {A} P (a : A) : adds_only P (ret a).
Proof. apply (adds_only_lift P (Ok a)). Qed.

Lemma adds_only_raise {A} P e : adds_only P (@raise A e).
Proof. apply (adds_only_lift P (Raise e)). Qed.

Lemma adds_only_log P level msg : adds_only P (log level msg).
Proof.
  intros s. exists []. simpl. by rewrite calls_logger_log, app_nil_r.
Qed.

Lemma adds_only_extern env (P : call -> Prop) c : P c -> adds_only P (extern env c).
Proof. intros Hc s. exists [c]. simpl. split; [done|]. by constructor. Qed.

Lemma adds_only_bind {A B} P (m : M A) (k : A -> M B) :
  adds_only P m -> (forall a, adds_only P (k a)) -> adds_only P (bind m k).
Proof.
  intros Hm Hk s. unfold bind. destruct (Hm s) as (l1 & E1 & F1).
  destruct (m s) as [s1 [a|e]]; simpl in *.
  - destruct (Hk a s1) as (l2 & E2 & F2). exists (l1 ++ l2)%list.
    rewrite E2, E1, app_assoc. split; [done|]. by apply Forall_app.
  - by exists l1.
Qed.

Lemma adds_only_if {A} P (b : bool) (m1 m2 : M A) :
  adds_only P m1 -> adds_only P m2 -> adds_only P (if b then m1 else m2).
Proof. by destruct b. Qed.

Ltac adds_only_step :=
  first
    [ apply adds_only_bind; [|intros ?]
    | apply adds_only_lift
    | apply adds_only_ret
    | apply adds_only_raise
    | apply adds_only_log
    | apply adds_only_extern
    | apply adds_only_if ].

(** ** The standalone key handler *)

Definition is_Process (c : call) : bool :=
  match c with
  | Process _ _ => true
  | _ => false
  end.

Lemma _cmd_gen_key_no_process env ctx options :
  adds_only (fun c => is_Process c = false) (_cmd_gen_key env ctx options).
Proof. unfold _cmd_gen_key. repeat adds_only_step; reflexivity. Qed.

Lemma _cmd_gen_runtime_no_process env ctx options :
  adds_only (fun c => is_Process c = false) (_cmd_gen_runtime env ctx options).
Proof. unfold _cmd_gen_runtime. repeat adds_only_step; reflexivity. Qed.

(** On inputs [tok :: extras], two or more extra tokens make the
    handler raise a [CliError] whose text lists exactly the extra tokens,
    before anything is logged or called; with no extra token the key is
    generated under the identifier the context gives, and written under
    that name in the output directory. *)
Theorem gen_key_arity env ctx options tok extras s :
  options !! "inputs" = Some (VList (tok :: extras)) ->
  ((2 <= length extras)%nat ->
   _cmd_gen_key env ctx options s
   = (s, Raise (CliError [VFormat "too many args %s" (VList extras)])))
  /\ (extras = [] ->
      forall data out a1 a2,
        answer env (GenerateRuntimeKey (runtime_keyid ctx)) = Ok data ->
        as_str (dict_get options "output" (VStr "dist")) = Ok out ->
        answer env (Makedirs out) = Ok a1 ->
        answer env (WriteFile (path_join env out (runtime_keyid ctx)) data) = Ok a2 ->
        exists s',
          _cmd_gen_key env ctx options s = (s', Ok tt)
          /\ calls s'
             = (calls s ++ [GenerateRuntimeKey (runtime_keyid ctx);
                            Makedirs out;
                            WriteFile (path_join env out (runtime_keyid ctx)) data])%list).
Proof.
  intros Hin. split.
  - intros Hlen. unfold _cmd_gen_key, bind, lift, getitem. rewrite Hin.
    cbn [py_len]. 
    assert ((2 <? Z.of_nat (length (tok :: extras))) = true) as ->
      by (apply Z.ltb_lt; simpl length; lia).
    reflexivity.
  - intros -> data out a1 a2 Hdata Hout Hmk Hwr.
    unfold _cmd_gen_key, bind, lift, getitem, extern, log, ret. rewrite Hin.
    cbn [py_len length]. change (2 <? Z.of_nat 1) with false.
    change (Z.of_nat 1 =? 1) with true. cbv iota.
    cbv beta iota zeta. rewrite Hdata, Hout, Hmk, Hwr. eexists. split; [reflexivity|].
    repeat (rewrite calls_record_call || rewrite calls_logger_log).
    by rewrite <- !app_assoc.
Qed.

(** The options of [pyarmor gen INPUTS] as far as the handlers read them. *)
Definition inputs_options (inputs : list string) : Options :=
  {["inputs" := VList inputs]}.

Lemma gen_key_arity_witness :
  inputs_options ["key"; "a"; "b"] !! "inputs" = Some (VList ["key"; "a"; "b"])
  /\ (2 <= length ["a"; "b"])%nat
  /\ _cmd_gen_key (gen_env [] all_fine) sample_ctx
       (inputs_options ["key"; "a"; "b"]) basicConfig
     = (basicConfig,
        Raise (CliError [VFormat "too many args %s" (VList ["a"; "b"])])).
Proof.
  split; [reflexivity|]. split; [simpl; lia|].
  apply (proj1 (gen_key_arity (gen_env [] all_fine) sample_ctx
                  (inputs_options ["key"; "a"; "b"]) "key" ["a"; "b"]
                  basicConfig eq_refl)).
  simpl. lia.
Defined.

(** ** Dispatch of the generation command *)

Lemma adds_only_weaken {A} (P Q : call -> Prop) (m : M A) :
  (forall c, P c -> Q c) -> adds_only P m -> adds_only Q m.
Proof.
  intros HPQ Hm s. destruct (Hm s) as (l & E & F). exists l. split; [done|].
  eapply Forall_impl; eauto.
Qed.

Definition is_ReadOuterInfo (c : call) : bool :=
  match c with
  | ReadOuterInfo _ => true
  | _ => false
  end.

(** The validator calls nothing but [read_outer_info]. *)
Lemma check_gen_context_calls env ctx :
  adds_only (fun c => is_ReadOuterInfo c = true) (check_gen_context env ctx).
Proof.
  unfold check_gen_context.
  apply adds_only_bind; [repeat adds_only_step|intros _].
  apply adds_only_bind; [adds_only_step|intros no_runtime].
  apply adds_only_bind; [repeat adds_only_step|intros _].
  destruct (outer_given ctx) as [outer|]; [|adds_only_step].
  apply adds_only_if; [repeat adds_only_step|].
  intros s. exists [ReadOuterInfo outer]. unfold extern.
  split; [|by repeat constructor].
  by destruct (answer env (ReadOuterInfo outer)) as [a|[]].
Qed.

Lemma bind_lift_Ok {A B} (a : A) (k : A -> M B) : bind (lift (Ok a)) k = k a.
Proof. reflexivity. Qed.

Lemma getattr_lookup (args : Namespace) x v :
  args !! x = Some v -> getattr args x = Ok v.
Proof. unfold getattr. by intros ->. Qed.

(** Dispatch happens once the options are normalized, the context
    passes validation and the Builder exists; it then goes by the
    lowercased first input alone.  And whatever happens before, a call
    of [cmd_gen] whose first input lowercases to one of the five
    sub-tokens never asks the engine to process scripts. *)
Theorem gen_dispatch env ctx args tok rest :
  args !! "inputs" = Some (VList (tok :: rest)) ->
  (forall options a b s s1,
     format_gen_args ctx args = Ok options ->
     answer env (CtxPush options) = Ok a ->
     check_gen_context env (push env ctx options) (after_push options s)
     = (s1, Ok tt) ->
     answer env NewBuilder = Ok b ->
     cmd_gen env ctx args s =
       (if str_in (str_lower env tok) ["key"; "k"] then
          _cmd_gen_key env (push env ctx options) options
        else if str_in (str_lower env tok) ["runtime"; "run"; "r"] then
          _cmd_gen_runtime env (push env ctx options) options
        else
          pack <~ lift (getattr args "pack") ;;
          extern env (Process options pack) ;;;
          ret tt) (record_call NewBuilder s1))
  /\ (str_in (str_lower env tok) ["key"; "k"; "runtime"; "run"; "r"] = true ->
      adds_only (fun c => is_Process c = false) (cmd_gen env ctx args)).
Proof.
  intros Hin. apply getattr_lookup in Hin. split.
  - intros options a b s s1 H Ha Hcheck Hb.
    rewrite (cmd_gen_until_check _ _ _ _ _ _ H Ha), Hcheck.
    unfold bind at 1. unfold extern at 1. rewrite Hb.
    unfold bind at 1. unfold lift at 1. rewrite Hin.
    unfold bind at 1. reflexivity.
  - intros Htok. unfold cmd_gen.
    apply adds_only_bind; [adds_only_step|intros options].
    apply adds_only_bind; [adds_only_step|intros _].
    apply adds_only_bind; [by adds_only_step|intros _].
    apply adds_only_bind;
      [apply (adds_only_weaken (fun c => is_ReadOuterInfo c = true));
         [by intros []|apply check_gen_context_calls]|intros _].
    apply adds_only_bind; [by adds_only_step|intros _].
    rewrite Hin, bind_lift_Ok.
    change (x <?- item (VList (tok :: rest)) 0 ;; as_str x) with (Ok tok).
    rewrite bind_lift_Ok.
    destruct (str_in (str_lower env tok) ["key"; "k"]) eqn:Hkey;
      [apply _cmd_gen_key_no_process|].
    destruct (str_in (str_lower env tok) ["runtime"; "run"; "r"]) eqn:Hrun;
      [apply _cmd_gen_runtime_no_process|].
    unfold str_in in *.
    change ["key"; "k"; "runtime"; "run"; "r"]
      with (["key"; "k"] ++ ["runtime"; "run"; "r"])%list in Htok.
    rewrite existsb_app, Hkey, Hrun in Htok. discriminate.
Qed.

(** [pyarmor gen [--no-runtime] TOKEN] *)
Definition token_flags (no_runtime : bool) (tok : string) : GenFlags :=
  sample_flags no_runtime None false None [tok].
Definition token_args (no_runtime : bool) (tok : string) : Namespace :=
  with_obj_module (sample_args (token_flags no_runtime tok)).
Definition token_options (no_runtime : bool) (tok : string) : Options :=
  returned (format_gen_args sample_ctx (token_args no_runtime tok)).

(** [pyarmor gen INPUTS] *)
Definition inputs_flags (inputs : list string) : GenFlags :=
  sample_flags false None false None inputs.

(** C8 at [pyarmor gen key a b] and [pyarmor gen key]: the claim expects
    the error that lists the surplus tokens, and a key generated under
    the default identifier; either command line ends with the
    [AttributeError] of the normalizer, before the key handler is
    reached, and the process exits with status 2 having called nothing
    but the creation of the context. *)
Theorem key_invocation_raises :
  cmd_gen (invocation_env (inputs_flags ["key"; "a"; "b"])) sample_ctx
    (sample_args (inputs_flags ["key"; "a"; "b"])) basicConfig
  = (basicConfig, Raise (AttributeError "obj_module"))
  /\ (main (invocation_env (inputs_flags ["key"; "a"; "b"]))
        ["gen"; "key"; "a"; "b"]).2 = 2
  /\ calls (main (invocation_env (inputs_flags ["key"; "a"; "b"]))
              ["gen"; "key"; "a"; "b"]).1
     = [NewContext "~/.pyarmor"]
  /\ cmd_gen (invocation_env (inputs_flags ["key"])) sample_ctx
       (sample_args (inputs_flags ["key"])) basicConfig
     = (basicConfig, Raise (AttributeError "obj_module"))
  /\ calls (main (invocation_env (inputs_flags ["key"])) ["gen"; "key"]).1
     = [NewContext "~/.pyarmor"].
Proof. conj_by_computation. Qed.

(** C10 at [pyarmor gen KEY]: the first input lowercases to [key], so
    the claim expects the standalone-key handler to run; [cmd_gen] ends
    with the [AttributeError] of the normalizer before anything is
    dispatched, and the process exits with status 2 having called
    nothing but the creation of the context. *)
Theorem key_token_never_dispatched :
  str_in (str_lower (invocation_env (inputs_flags ["KEY"])) "KEY") ["key"; "k"]
  = true
  /\ cmd_gen (invocation_env (inputs_flags ["KEY"])) sample_ctx
       (sample_args (inputs_flags ["KEY"])) basicConfig
     = (basicConfig, Raise (AttributeError "obj_module"))
  /\ (main (invocation_env (inputs_flags ["KEY"])) ["gen"; "KEY"]).2 = 2
  /\ calls (main (invocation_env (inputs_flags ["KEY"])) ["gen"; "KEY"]).1
     = [NewContext "~/.pyarmor"].
Proof. conj_by_computation. Qed.

Lemma gen_dispatch_witness :
  token_args false "KEY" !! "inputs" = Some (VList ["KEY"])
  /\ format_gen_args sample_ctx (token_args false "KEY")
     = Ok (token_options false "KEY")
  /\ check_gen_context (gen_env [] all_fine)
       (push (gen_env [] all_fine) sample_ctx (token_options false "KEY"))
       (after_push (token_options false "KEY") basicConfig)
     = (after_push (token_options false "KEY") basicConfig, Ok tt)
  /\ cmd_gen (gen_env [] all_fine) sample_ctx (token_args false "KEY") basicConfig
     = _cmd_gen_key (gen_env [] all_fine)
         (push (gen_env [] all_fine) sample_ctx (token_options false "KEY"))
         (token_options false "KEY")
         (record_call NewBuilder
            (after_push (token_options false "KEY") basicConfig))
  /\ adds_only (fun c => is_Process c = false)
       (cmd_gen (gen_env [] all_fine) sample_ctx (token_args false "KEY")).
Proof.
  assert (Hin : token_args false "KEY" !! "inputs" = Some (VList ["KEY"]))
    by by_computation.
  assert (H : format_gen_args sample_ctx (token_args false "KEY")
              = Ok (token_options false "KEY")) by by_computation.
  assert (Hc : check_gen_context (gen_env [] all_fine)
                 (push (gen_env [] all_fine) sample_ctx (token_options false "KEY"))
                 (after_push (token_options false "KEY") basicConfig)
               = (after_push (token_options false "KEY") basicConfig, Ok tt))
    by by_computation.
  split; [exact Hin|]. split; [exact H|]. split; [exact Hc|].
  split.
  - pose proof (proj1 (gen_dispatch (gen_env [] all_fine) sample_ctx
                         (token_args false "KEY") "KEY" [] Hin)
                  (token_options false "KEY") VNone VNone basicConfig
                  (after_push (token_options false "KEY") basicConfig)
                  H eq_refl Hc eq_refl) as D.
    assert (Hk : str_in (str_lower (gen_env [] all_fine) "KEY") ["key"; "k"]
                 = true) by reflexivity.
    rewrite Hk in D. exact D.
  - exact (proj2 (gen_dispatch (gen_env [] all_fine) sample_ctx
                    (token_args false "KEY") "KEY" [] Hin) eq_refl).
Defined.

(** ** Invariants of a run *)

(** [m] keeps the property [I] of the state. *)
Definition preserves {A} (I : Sys -> Prop) (m : M A) : Prop :=
  forall s, I s -> I (m s).1.

Section Invariant.

Variable env : Env.
Variable I : Sys -> Prop.
Hypothesis I_log : forall level msg s, I s -> I (logger_log level msg s).
Hypothesis I_call : forall c s, I s -> I (record_call c s).

Lemma preserves_lift {A} (r : result A) : preserves I (lift r).
Proof. by intros s. Qed.

Lemma preserves_ret {A} (a : A) : preserves I (ret a).
Proof. by intros s. Qed.

Lemma preserves_raise {A} e : preserves I (@raise A e).
Proof. by intros s. Qed.

Lemma preserves_log level msg : preserves I (log level msg).
Proof. intros s. apply I_log. Qed.

Lemma preserves_extern c : preserves I (extern env c).
Proof. intros s. apply I_call. Qed.

Lemma preserves_bind {A B} (m : M A) (k : A -> M B) :
  preserves I m -> (forall a, preserves I (k a)) -> preserves I (bind m k).
Proof.
  intros Hm Hk s Hs. unfold bind. specialize (Hm s Hs).
  destruct (m s) as [s1 [a|e]]; simpl in *; [by apply Hk|done].
Qed.

Lemma preserves_if {A} (b : bool) (m1 m2 : M A) :
  preserves I m1 -> preserves I m2 -> preserves I (if b then m1 else m2).
Proof. by destruct b. Qed.

Ltac preserves_step :=
  first
    [ apply preserves_bind; [|intros ?]
    | apply preserves_lift
    | apply preserves_ret
    | apply preserves_raise
    | apply preserves_log
    | apply preserves_extern
    | apply preserves_if ].

Lemma preserves__cmd_gen_key ctx options :
  preserves I (_cmd_gen_key env ctx options).
Proof. unfold _cmd_gen_key. repeat preserves_step. Qed.

Lemma preserves__cmd_gen_runtime ctx options :
  preserves I (_cmd_gen_runtime env ctx options).
Proof. unfold _cmd_gen_runtime. repeat preserves_step. Qed.

Lemma preserves_check_gen_context ctx :
  preserves I (check_gen_context env ctx).
Proof.
  unfold check_gen_context. repeat preserves_step.
  destruct (outer_given ctx) as [outer|]; repeat preserves_step.
  intros s Hs. unfold extern.
  destruct (answer env (ReadOuterInfo outer)) as [?|[]]; by apply I_call.
Qed.

Lemma preserves_cmd_gen ctx args : preserves I (cmd_gen env ctx args).
Proof.
  unfold cmd_gen.
  apply preserves_bind; [preserves_step|intros options].
  do 2 (apply preserves_bind; [preserves_step|intros _]). cbv zeta.
  apply preserves_bind; [apply preserves_check_gen_context|intros _].
  apply preserves_bind; [preserves_step|intros _].
  apply preserves_bind; [preserves_step|intros inputs].
  apply preserves_bind; [preserves_step|intros tok].
  apply preserves_if; [apply preserves__cmd_gen_key|].
  apply preserves_if; [apply preserves__cmd_gen_runtime|].
  repeat preserves_step.
Qed.

Lemma preserves_cmd_cfg ctx args : preserves I (cmd_cfg env ctx args).
Proof. unfold cmd_cfg. repeat preserves_step. Qed.

Lemma preserves_cmd_reg ctx args : preserves I (cmd_reg env ctx args).
Proof. unfold cmd_reg. repeat preserves_step. Qed.

Lemma preserves_call_func f ctx args : preserves I (call_func env f ctx args).
Proof.
  unfold call_func. destruct f; try apply preserves_raise.
  repeat apply preserves_if;
    [apply preserves_cmd_gen|apply preserves_cmd_cfg|apply preserves_cmd_reg
    |apply preserves_raise].
Qed.

Hypothesis I_settings :
  forall home args, preserves I (log_settings (new_context env home) args).

Lemma preserves_main_entry argv : preserves I (main_entry env argv).
Proof.
  unfold main_entry. apply preserves_bind; [preserves_step|intros args].
  destruct (python_version env) as [[major minor] micro].
  apply preserves_if; [preserves_step|].
  apply preserves_bind; [preserves_step|intros home].
  apply preserves_bind; [preserves_step|intros _]. cbv zeta.
  apply preserves_bind; [apply I_settings|intros _].
  apply preserves_bind; [preserves_step|intros version].
  apply preserves_bind;
    [apply preserves_if; [unfold print_version|]; repeat preserves_step|intros _].
  apply preserves_bind; [preserves_step|intros interactive].
  apply preserves_if; [repeat preserves_step|].
  do 4 (apply preserves_bind; [preserves_step|intros _]).
  destruct (args !! "func") as [f|];
    [apply preserves_call_func|repeat preserves_step].
Qed.

End Invariant.

(** ** The logging configuration *)

Definition logging_config (s : Sys) : Z * list handler * list handler * bool :=
  (root_level s, root_handlers s, error_handlers s, error_propagate s).

Lemma config_handle h r s : logging_config (handle h r s) = logging_config s.
Proof.
  destruct h as [fmt|path fmt level|]; simpl; [done| |done].
  by destruct (level <=? lr_level r).
Qed.

Lemma config_call_handlers hs r s :
  logging_config (call_handlers hs r s) = logging_config s.
Proof.
  unfold call_handlers. revert s.
  induction hs as [|h hs IH]; intros s; simpl; [done|].
  by rewrite IH, config_handle.
Qed.

(** Logging a record changes no logger. *)
Lemma config_logger_log level msg s :
  logging_config (logger_log level msg s) = logging_config s.
Proof.
  unfold logger_log. destruct (root_level s <=? level); [|done].
  apply config_call_handlers.
Qed.

(** A file handler that writes to another file than [path]. *)
Definition writes_elsewhere (path : string) (h : handler) : bool :=
  match h with
  | FileHandler p _ _ => negb (String.eqb p path)
  | _ => false
  end.

(** The handlers [main_entry] leaves on the root logger: the console
    handler of [basicConfig], then file handlers that stay clear of the
    error log. *)
Definition console_then_files (hs : list handler) : bool :=
  match hs with
  | StreamHandler _ :: files => forallb (writes_elsewhere error_logfile) files
  | _ => false
  end.

Definition configured (s : Sys) : Prop :=
  console_then_files (root_handlers s) = true /\ error_handlers s = [].

Lemma configured_config s s' :
  logging_config s' = logging_config s -> configured s -> configured s'.
Proof.
  unfold logging_config, configured. intros E. injection E as _ -> -> _. done.
Qed.

Lemma configured_log level msg s :
  configured s -> configured (logger_log level msg s).
Proof. apply configured_config, config_logger_log. Qed.

Lemma configured_call c s : configured s -> configured (record_call c s).
Proof. by apply configured_config. Qed.

Lemma configured_log_settings ctx args :
  debug_logfile ctx <> error_logfile ->
  preserves configured (log_settings ctx args).
Proof.
  intros Hne. unfold log_settings.
  apply preserves_bind; [apply preserves_lift|intros debug].
  apply preserves_bind; [|intros _].
  - destruct (truthy debug); [|apply preserves_ret].
    intros s [Hh He]. split; [|done]. simpl.
    destruct (root_handlers s) as [|[fmt| |] files]; try done. simpl in *.
    rewrite forallb_app, Hh. simpl.
    apply String.eqb_neq in Hne. by rewrite Hne.
  - apply preserves_bind; [apply preserves_lift|intros silent].
    destruct (truthy silent); [|apply preserves_ret].
    by intros s.
Qed.

(** Whatever the command line, [main_entry] leaves the root logger with
    its console handler first and never touches the logger
    [Pyarmor.Error]. *)
Lemma main_entry_configured env argv s :
  (forall home, debug_logfile (new_context env home) <> error_logfile) ->
  configured s -> configured (main_entry env argv s).1.
Proof.
  intros Hne. apply preserves_main_entry.
  - apply configured_log.
  - apply configured_call.
  - intros home args. apply configured_log_settings, Hne.
Qed.

(** What a record handed to such file handlers leaves of the console and
    of the error log: both as they were. *)
Definition report_view (s : Sys) : list log_record * option (list logline) :=
  (console s, logfiles s !! error_logfile).

Lemma view_call_handlers_elsewhere files r s :
  forallb (writes_elsewhere error_logfile) files = true ->
  report_view (call_handlers files r s) = report_view s.
Proof.
  unfold call_handlers. revert s.
  induction files as [|h files IH]; intros s; simpl; [done|].
  intros [Hh Hfiles]%andb_true_iff. rewrite IH by done.
  destruct h as [fmt|path fmt level|]; simpl in *; try done.
  destruct (level <=? lr_level r); [|done].
  unfold report_view. simpl. f_equal.
  apply lookup_insert_ne. apply negb_true_iff, String.eqb_neq in Hh. done.
Qed.

Definition pointer_record : log_record :=
  {| lr_level := CRITICAL;
     lr_msg := LText "unknown error, please check pyarmor.error.log" [];
     lr_exc_info := None |}.

Definition error_record (e : exn) : log_record :=
  {| lr_level := ERROR; lr_msg := LExn e; lr_exc_info := None |}.

(** The record [log.exception(e)] makes: the formatter of a file handler
    appends the traceback of [lr_exc_info]. *)
Definition exception_record (e : exn) : log_record :=
  {| lr_level := ERROR; lr_msg := LExn e; lr_exc_info := Some e |}.

(** A record the root logger lets through goes to the console once and
    leaves the error log alone. *)
Lemma logger_log_view level msg s :
  console_then_files (root_handlers s) = true ->
  root_level s <= level ->
  report_view (logger_log level msg s)
  = ((console s ++ [{| lr_level := level; lr_msg := msg; lr_exc_info := None |}])%list,
     logfiles s !! error_logfile).
Proof.
  intros Hh Hlevel. unfold logger_log.
  apply Z.leb_le in Hlevel as ->.
  destruct (root_handlers s) as [|[fmt| |] files]; try done. simpl in Hh.
  change (call_handlers (StreamHandler fmt :: files) ?r s)
    with (call_handlers files r (write_console r s)).
  by rewrite view_call_handlers_elsewhere.
Qed.

(** [log_exception] in a configured state that is not silenced, when the
    error log can be opened: the pointer line on the console, and an
    error log that holds the record of the exception and nothing else,
    whatever it held before. *)
Lemma log_exception_view env e s :
  configured s ->
  root_level s <= ERROR ->
  log_opens env error_logfile = true ->
  exists s',
    log_exception env e s = (s', Ok tt)
    /\ report_view s'
       = ((console s ++ [pointer_record])%list,
          Some [(error_logfmt, exception_record e)])
    /\ root_level s' = root_level s
    /\ root_handlers s' = root_handlers s.
Proof.
  intros [Hh He] Hlevel Hopen. unfold log_exception. rewrite Hopen.
  eexists. split; [reflexivity|]. cbv zeta.
  pose proof (logger_log_view CRITICAL
                (LText "unknown error, please check pyarmor.error.log" []) s Hh)
    as Hv.
  pose proof (config_logger_log CRITICAL
                (LText "unknown error, please check pyarmor.error.log" []) s)
    as Hc.
  destruct (logger_log CRITICAL _ s) as [rl rh eh ep con lf cl].
  unfold report_view, logging_config in *. simpl in *.
  injection Hc as -> -> Heh ->. rewrite He in Heh. subst eh.
  assert (Hcrit : root_level s <= CRITICAL) by (unfold CRITICAL, ERROR in *; lia).
  injection (Hv Hcrit) as -> _.
  unfold error_log_exception. simpl.
  apply Z.leb_le in Hlevel as ->. simpl.
  by rewrite lookup_insert_eq, lookup_insert_eq.
Qed.

(** The handler of [main] in a configured state that is not silenced. *)
Lemma report_when_configured env e s :
  configured s ->
  root_level s <= ERROR ->
  log_opens env error_logfile = true ->
  exists s',
    log_exception env e s = (s', Ok tt)
    /\ report_view (logger_log ERROR (LExn e) s')
       = ((console s ++ [pointer_record; error_record e])%list,
          Some [(error_logfmt, exception_record e)]).
Proof.
  intros Hs Hlevel Hopen.
  destruct (log_exception_view env e s Hs Hlevel Hopen) as (s' & Hrun & Hv & Hl & Hr).
  exists s'. split; [done|]. rewrite logger_log_view.
  - unfold report_view in Hv. injection Hv as -> ->.
    by rewrite <- app_assoc.
  - rewrite Hr. apply Hs.
  - by rewrite Hl.
Qed.

(** ** The error policy of [main] *)

(** The state in which the [try] statement of [main] is entered when the
    working directory holds the log files [files] of earlier runs. *)
Definition started (files : gmap string (list logline)) : Sys :=
  {| root_level := root_level basicConfig;
     root_handlers := root_handlers basicConfig;
     error_handlers := error_handlers basicConfig;
     error_propagate := error_propagate basicConfig;
     console := console basicConfig;
     logfiles := files;
     calls := calls basicConfig |}.

Lemma started_empty : started ∅ = basicConfig.
Proof. reflexivity. Qed.

(** C2, as the code has it: when [main_entry] ends with an exception
    that is not a usage error, the run is not silenced and the error log
    can be opened, the console receives two lines -- a critical line
    pointing to [pyarmor.error.log], then an error line with the
    exception -- and the error log, whatever an earlier run left in it,
    holds the exception with its traceback and nothing else.  (The debug
    log is assumed to be another file.) *)
Theorem unexpected_error_report env files argv s1 e :
  (forall home, debug_logfile (new_context env home) <> error_logfile) ->
  log_opens env error_logfile = true ->
  main_entry env argv (started files) = (s1, Raise e) ->
  is_Exception e = true ->
  is_CliError e = false ->
  root_level s1 <= ERROR ->
  console (main_from env (started files) argv).1
  = (console s1 ++ [pointer_record; error_record e])%list
  /\ logfiles (main_from env (started files) argv).1 !! error_logfile
     = Some [(error_logfmt, exception_record e)].
Proof.
  intros Hne Hopen Hmain Hexc _ Hlevel.
  assert (Hs1 : configured s1).
  { change s1 with (s1, @Raise unit e).1. rewrite <- Hmain.
    apply main_entry_configured; [done|]. by split. }
  destruct (report_when_configured env e s1 Hs1 Hlevel Hopen)
    as (s' & Hrun & Hv).
  unfold report_view in Hv. injection Hv as Hcon Hlog.
  unfold main_from. rewrite Hmain, Hexc, Hrun.
  change ((?a, ?b).1) with a.
  split; [exact Hcon|exact Hlog].
Qed.


Definition with_python (version : Z * Z * Z) (env : Env) : Env :=
  {| parse_args := parse_args env; python_version := version;
     getenv := getenv env; expand_path := expand_path env;
     path_join := path_join env; path_exists := path_exists env;
     new_context := new_context env; push := push env;
     answer := answer env; str_lower := str_lower env;
     log_opens := log_opens env |}.

Definition silent_flags : MainFlags :=
  {| m_version := false; m_silent := true; m_debug := false;
     m_interactive := false; m_home := None |}.

(** [pyarmor [-q] gen foo.py], parsed. *)
Definition gen_foo (m : MainFlags) : Namespace :=
  gen_namespace m (sample_flags false None false None ["foo.py"]).

Definition gen_foo_env (m : MainFlags) : Env :=
  sample_env (Ok (gen_foo m)) [] all_fine.

Definition gen_foo_argv (m : MainFlags) : list string :=
  (if m_silent m then ["-q"] else []) ++ ["gen"; "foo.py"].

(** The state in which [main_entry] hands over to the handler of [main]. *)
Definition gen_foo_state (m : MainFlags) : Sys :=
  (main_entry (gen_foo_env m) (gen_foo_argv m) basicConfig).1.

(** C2 fails as stated at [pyarmor gen foo.py]: the run ends with an
    [AttributeError], and the handler puts two lines on the console, the
    pointer and the error itself.  At [pyarmor -q gen foo.py] the
    console stays empty and the error log is emptied but receives
    nothing. *)
Lemma unexpected_error_two_lines :
  main_entry (gen_foo_env no_main_flags) (gen_foo_argv no_main_flags) basicConfig
  = (gen_foo_state no_main_flags, Raise (AttributeError "obj_module"))
  /\ is_CliError (AttributeError "obj_module") = false
  /\ console (main (gen_foo_env no_main_flags) (gen_foo_argv no_main_flags)).1
     = (console (gen_foo_state no_main_flags)
        ++ [pointer_record; error_record (AttributeError "obj_module")])%list
  /\ main_entry (gen_foo_env silent_flags) (gen_foo_argv silent_flags) basicConfig
     = (gen_foo_state silent_flags, Raise (AttributeError "obj_module"))
  /\ console (main (gen_foo_env silent_flags) (gen_foo_argv silent_flags)).1 = []
  /\ logfiles (main (gen_foo_env silent_flags) (gen_foo_argv silent_flags)).1
     !! error_logfile = Some [].
Proof. conj_by_computation. Qed.

(** What an earlier failed run has left in the working directory. *)
Definition earlier_error_log : gmap string (list logline) :=
  {[error_logfile := [(error_logfmt, exception_record (KeyError "earlier"))]]}.

Definition gen_foo_state_after_earlier : Sys :=
  (main_entry (gen_foo_env no_main_flags) (gen_foo_argv no_main_flags)
     (started earlier_error_log)).1.

Lemma unexpected_error_report_witness :
  (forall home,
     debug_logfile (new_context (gen_foo_env no_main_flags) home) <> error_logfile)
  /\ log_opens (gen_foo_env no_main_flags) error_logfile = true
  /\ logfiles (started earlier_error_log) !! error_logfile
     = Some [(error_logfmt, exception_record (KeyError "earlier"))]
  /\ main_entry (gen_foo_env no_main_flags) (gen_foo_argv no_main_flags)
       (started earlier_error_log)
     = (gen_foo_state_after_earlier, Raise (AttributeError "obj_module"))
  /\ root_level gen_foo_state_after_earlier <= ERROR
  /\ console (main_from (gen_foo_env no_main_flags) (started earlier_error_log)
                (gen_foo_argv no_main_flags)).1
     = (console gen_foo_state_after_earlier
        ++ [pointer_record; error_record (AttributeError "obj_module")])%list
  /\ logfiles (main_from (gen_foo_env no_main_flags) (started earlier_error_log)
                 (gen_foo_argv no_main_flags)).1
     !! error_logfile
     = Some [(error_logfmt, exception_record (AttributeError "obj_module"))].
Proof.
  assert (Hne : forall home,
            debug_logfile (new_context (gen_foo_env no_main_flags) home)
            <> error_logfile) by (intros home; discriminate).
  assert (Hmain : main_entry (gen_foo_env no_main_flags)
                    (gen_foo_argv no_main_flags) (started earlier_error_log)
                  = (gen_foo_state_after_earlier,
                     Raise (AttributeError "obj_module"))) by by_computation.
  assert (Hlevel : root_level gen_foo_state_after_earlier <= ERROR)
    by (apply Z.leb_le; by_computation).
  split; [exact Hne|]. split; [reflexivity|]. split; [by_computation|].
  split; [exact Hmain|]. split; [exact Hlevel|].
  exact (unexpected_error_report (gen_foo_env no_main_flags) earlier_error_log
           (gen_foo_argv no_main_flags) gen_foo_state_after_earlier
           (AttributeError "obj_module") Hne eq_refl Hmain eq_refl eq_refl Hlevel).
Defined.

(** C1 at [pyarmor gen foo.py] run by Python 3.6: [main_entry] raises the
    [CliError] of the version check and the process exits with status 2,
    the very status with which it exits on the [AttributeError] that the
    same command line ends with under Python 3.11; no status is set
    apart for usage errors. *)
Theorem cli_error_exits_like_any_error :
  main_entry (with_python (3, 6, 8) (gen_foo_env no_main_flags))
    (gen_foo_argv no_main_flags) basicConfig
  = (basicConfig, Raise (CliError [VStr "only Python 3.7+ is supported now"]))
  /\ (main (with_python (3, 6, 8) (gen_foo_env no_main_flags))
        (gen_foo_argv no_main_flags)).2 = 2
  /\ main_entry (gen_foo_env no_main_flags) (gen_foo_argv no_main_flags) basicConfig
     = (gen_foo_state no_main_flags, Raise (AttributeError "obj_module"))
  /\ (main (gen_foo_env no_main_flags) (gen_foo_argv no_main_flags)).2 = 2.
Proof. conj_by_computation. Qed.

(** * Further properties *)

(** ** The normalizer, entry by entry *)

(** The patterns of a repeatable flag, joined by single spaces. *)
Definition joined (args : Namespace) (name : string) : option value :=
  match args !! name with
  | Some v =>
      if truthy v
      then match iter v with
           | Ok l => Some (VStr (join " " l))
           | Raise _ => None
           end
      else None
  | None => None
  end.

(** The entry written under one of the three names the last rules use. *)
Definition late_entry (args : Namespace) (x : string) : option value :=
  if String.eqb x "excludes" then joined args "excludes"
  else if String.eqb x "includes" then joined args "includes"
  else if String.eqb x "wrap_mode" then
    match args !! "no_wrap" with
    | Some v => if truthy v then Some (VInt 0) else None
    | None => None
    end
  else None.

Definition late_names : list string := ["wrap_mode"; "includes"; "excludes"].

Lemma join_rule_lookup (v : value) (k x : string) (o o' : Options) :
  (if truthy v
   then l <?- iter v ;; Ok (<[k := VStr (join " " l)]> o)
   else Ok o) = Ok o' ->
  o' !! x
  = or_else (if String.eqb x k
             then if truthy v
                  then match iter v with
                       | Ok l => Some (VStr (join " " l))
                       | Raise _ => None
                       end
                  else None
             else None) (o !! x).
Proof.
  intros H. destruct (truthy v).
  - inv_rbind H l Hl. injection H as <-. rewrite Hl.
    destruct (String.eqb x k) eqn:Hx.
    + apply String.eqb_eq in Hx as ->. by rewrite lookup_insert_eq.
    + apply String.eqb_neq in Hx. by rewrite lookup_insert_ne.
  - injection H as <-. by destruct (String.eqb x k).
Qed.

(** [enable_<f>] is never a name that does not start with [enable_]. *)
Lemma names_feature_unprefixed x l :
  String.prefix "enable_" x = false -> names_feature x l = false.
Proof.
  intros Hx. unfold names_feature. induction l as [|f l IH]; [done|].
  cbn [existsb]. rewrite IH, orb_false_r.
  destruct (String.eqb x ("enable_" ++ f)) eqn:E; [|done].
  apply String.eqb_eq in E as ->. simpl in Hx.
  by destruct f.
Qed.

(** The returned mapping, entry by entry, for every name. *)
Lemma format_gen_args_entries ctx args options x :
  format_gen_args ctx args = Ok options ->
  options !! x
  = or_else (late_entry args x)
      (or_else (derived_entry args x)
         (if bool_decide (x ∈ gen_option_names) then copied args x None else None)).
Proof.
  intros H. destruct (decide (x ∈ gen_option_names)) as [Hx|Hx].
  - rewrite bool_decide_true by done.
    rewrite <- (format_gen_args_lookup _ _ _ _ H Hx).
    destruct (option_names_not_late x Hx) as (Hw & Hi & He).
    unfold late_entry.
    apply String.eqb_neq in Hw as ->. apply String.eqb_neq in Hi as ->.
    by apply String.eqb_neq in He as ->.
  - rewrite bool_decide_false by done.
    rewrite format_gen_args_eq in H. cbv beta in H.
    inv_rbind H o1 Hcopy.
    pose proof (copy_set_other _ _ _ _ _ Hcopy Hx) as Hx1.
    rewrite lookup_empty in Hx1.
    rewrite (copy_set_restrict _ _ Hcopy) in H.
    inv_rbind H b Hb. inv_rbind H enables Hen. inv_rbind H o3 Ho3.
    inv_rbind H relative Hrel. inv_rbind H no_wrap Hnw.
    inv_rbind H includes Hinc. inv_rbind H o6 Ho6.
    inv_rbind H excludes Hexc. inv_rbind H o7 Ho7.
    injection H as <-.
    apply getattr_Ok in Hen, Hrel, Hnw, Hinc, Hexc.
    assert (Hmix : x <> "mix_name")
      by (intros ->; apply Hx, list_elem_of_In; simpl; tauto).
    assert (Hri : x <> "relative_import")
      by (intros ->; apply Hx, list_elem_of_In; simpl; tauto).
    assert (o3 !! x =
              if names_feature x (enabled_features args)
              then Some (VBool true) else None) as Ho3x.
    { unfold enabled_features. rewrite Hen. destruct (truthy enables).
      - inv_rbind Ho3 l Hl. injection Ho3 as <-.
        rewrite Hl, set_enables_lookup, cond_insert_ne, Hx1 by done. done.
      - injection Ho3 as <-. by rewrite cond_insert_ne, Hx1. }
    rewrite (join_rule_lookup _ _ _ _ _ Ho7), (join_rule_lookup _ _ _ _ _ Ho6).
    rewrite cond_insert_lookup, cond_insert_ne, Ho3x by done.
    unfold late_entry, joined, derived_entry, relative_prefix.
    rewrite Hexc, Hinc, Hnw, Hrel.
    apply String.eqb_neq in Hmix as ->. apply String.eqb_neq in Hri as ->.
    simpl.
    destruct (String.eqb x "excludes") eqn:E1.
    { apply String.eqb_eq in E1 as ->.
      rewrite names_feature_unprefixed by reflexivity. simpl.
      destruct (truthy excludes); [destruct (iter excludes)|];
        destruct (truthy relative); done. }
    destruct (String.eqb x "includes") eqn:E2.
    { apply String.eqb_eq in E2 as ->.
      rewrite names_feature_unprefixed by reflexivity. simpl.
      destruct (truthy includes); [destruct (iter includes)|];
        destruct (truthy relative); done. }
    destruct (String.eqb x "wrap_mode") eqn:E3.
    { apply String.eqb_eq in E3 as ->.
      rewrite names_feature_unprefixed by reflexivity. simpl.
      destruct (truthy no_wrap), (truthy relative); done. }
    simpl. destruct (truthy relative); simpl;
      by destruct (names_feature x (enabled_features args)).
Qed.

Lemma names_feature_elem f l : f ∈ l -> names_feature ("enable_" ++ f) l = true.
Proof.
  intros Hf. unfold names_feature. apply existsb_exists. exists f.
  split; [by apply list_elem_of_In|apply String.eqb_refl].
Qed.

Lemma names_feature_inv x l :
  names_feature x l = true -> exists f, f ∈ l /\ x = "enable_" ++ f.
Proof.
  unfold names_feature. intros (f & Hf & Hx)%existsb_exists. exists f.
  split; [by apply list_elem_of_In|by apply String.eqb_eq].
Qed.

(** [pyarmor gen --enable jit --enable bcc --no-wrap --include *.py
    --include *.pyx --restrict 1 foo.py] *)
Definition rich_flags : GenFlags :=
  {| g_output := None; g_pack := None; g_no_runtime := false;
     g_recursive := false; g_findall := false;
     g_includes := ["*.py"; "*.pyx"]; g_excludes := [];
     g_obf_module := None; g_obf_code := None; g_no_wrap := true;
     g_mix_str := false; g_mix_name := false;
     g_enable_bcc := false; g_enable_rft := false; g_enable_jit := false;
     g_enable_themida := false; g_assert_call := false;
     g_assert_import := false; g_enables := ["jit"; "bcc"];
     g_restrict_module := Some 1; g_relative_import := false;
     g_relative := None; g_platforms := []; g_outer := None;
     g_expired := None; g_period := None; g_devices := [];
     g_bind_interp := None; g_hook := None; g_inputs := ["foo.py"] |}.
Definition rich_args : Namespace := with_obj_module (sample_args rich_flags).
Definition rich_options : Options :=
  returned (format_gen_args sample_ctx rich_args).

Lemma rich_options_returned :
  format_gen_args sample_ctx rich_args = Ok rich_options.
Proof. by_computation. Qed.

(** Whatever flags the command line holds, the namespace the [gen]
    parser builds makes the normalizer raise [AttributeError] for the
    name [obj_module]: the first loop asks for an attribute the parser
    never defines (its destination is [obf_module]). *)
Theorem parsed_namespace_always_raises ctx m g :
  format_gen_args ctx (gen_namespace m g) = Raise (AttributeError "obj_module").
Proof. apply format_gen_args_parsed. Qed.

(** Each feature named by [--enable] gets its [enable_<feature>] entry
    set to [True], whatever the dedicated flag of that feature says. *)
Theorem enable_sets_feature ctx args options l f :
  format_gen_args ctx args = Ok options ->
  args !! "enables" = Some (VList l) ->
  f ∈ l ->
  options !! ("enable_" ++ f) = Some (VBool true).
Proof.
  intros H Hen Hf. rewrite (format_gen_args_entries _ _ _ _ H).
  assert (Hfs : names_feature ("enable_" ++ f) (enabled_features args) = true).
  { unfold enabled_features. rewrite Hen.
    destruct l as [|g l]; [by apply elem_of_nil in Hf|].
    by apply names_feature_elem. }
  unfold late_entry, derived_entry. rewrite Hfs.
  change (String.eqb ("enable_" ++ f) "excludes") with false.
  change (String.eqb ("enable_" ++ f) "includes") with false.
  change (String.eqb ("enable_" ++ f) "wrap_mode") with false.
  change (String.eqb ("enable_" ++ f) "relative_import") with false.
  by destruct (relative_prefix args).
Qed.

Lemma enable_sets_feature_witness :
  format_gen_args sample_ctx rich_args = Ok rich_options
  /\ rich_args !! "enables" = Some (VList ["jit"; "bcc"])
  /\ "bcc" ∈ ["jit"; "bcc"]
  /\ rich_args !! "enable_bcc" = Some VNone
  /\ rich_options !! "enable_bcc" = Some (VBool true).
Proof.
  assert (Hen : rich_args !! "enables" = Some (VList ["jit"; "bcc"]))
    by by_computation.
  assert (Hf : "bcc" ∈ ["jit"; "bcc"]) by (apply list_elem_of_In; simpl; tauto).
  split; [exact rich_options_returned|]. split; [exact Hen|].
  split; [exact Hf|]. split; [by_computation|].
  exact (enable_sets_feature sample_ctx rich_args rich_options
           ["jit"; "bcc"] "bcc" rich_options_returned Hen Hf).
Defined.

(** The [wrap_mode] entry exists only under [--no-wrap], and then it is
    0; no other flag writes it. *)
Theorem wrap_mode_entry ctx args options v :
  format_gen_args ctx args = Ok options ->
  args !! "no_wrap" = Some v ->
  options !! "wrap_mode" = if truthy v then Some (VInt 0) else None.
Proof.
  intros H Hnw. rewrite (format_gen_args_entries _ _ _ _ H).
  unfold late_entry, derived_entry. rewrite Hnw.
  rewrite names_feature_other by discriminate.
  change (String.eqb "wrap_mode" "excludes") with false.
  change (String.eqb "wrap_mode" "includes") with false.
  change (String.eqb "wrap_mode" "wrap_mode") with true.
  change (String.eqb "wrap_mode" "relative_import") with false.
  change (String.eqb "wrap_mode" "mix_name") with false.
  cbv iota.
  destruct (truthy v); [done|].
  assert (bool_decide ("wrap_mode" ∈ gen_option_names) = false) as ->.
  { apply bool_decide_eq_false. intros Hin%option_names_not_late. by destruct Hin. }
  by destruct (relative_prefix args).
Qed.

Lemma wrap_mode_entry_witness :
  format_gen_args sample_ctx rich_args = Ok rich_options
  /\ rich_args !! "no_wrap" = Some (VBool true)
  /\ rich_options !! "wrap_mode" = Some (VInt 0).
Proof.
  assert (Hnw : rich_args !! "no_wrap" = Some (VBool true)) by by_computation.
  split; [exact rich_options_returned|]. split; [exact Hnw|].
  exact (wrap_mode_entry sample_ctx rich_args rich_options (VBool true)
           rich_options_returned Hnw).
Defined.

(** The entry of [includes] or [excludes], whatever the attribute holds. *)
Lemma patterns_entry ctx args options name :
  format_gen_args ctx args = Ok options ->
  name = "includes" \/ name = "excludes" ->
  options !! name = joined args name.
Proof.
  intros H Hname. rewrite (format_gen_args_entries _ _ _ _ H).
  assert (late_entry args name = joined args name) as ->
    by (by destruct Hname as [-> | ->]).
  assert (derived_entry args name = None) as ->.
  { unfold derived_entry.
    rewrite names_feature_unprefixed by (by destruct Hname as [-> | ->]).
    destruct Hname as [-> | ->]; by destruct (relative_prefix args). }
  assert (bool_decide (name ∈ gen_option_names) = false) as ->.
  { apply bool_decide_eq_false. intros (_ & Hi & He)%option_names_not_late.
    by destruct Hname. }
  by destruct (joined args name).
Qed.

(** The patterns of [--include] (and likewise of [--exclude]) end up in
    one entry, joined by single spaces in the order given; without the
    flag there is no such entry. *)
Theorem patterns_joined ctx args options name :
  format_gen_args ctx args = Ok options ->
  name = "includes" \/ name = "excludes" ->
  (forall p l, args !! name = Some (VList (p :: l)) ->
               options !! name = Some (VStr (join " " (p :: l))))
  /\ (args !! name = Some VNone -> options !! name = None).
Proof.
  intros H Hname. rewrite (patterns_entry _ _ _ _ H Hname). unfold joined.
  split; [intros p l ->|intros ->]; reflexivity.
Qed.

Lemma patterns_joined_witness :
  format_gen_args sample_ctx rich_args = Ok rich_options
  /\ rich_args !! "includes" = Some (VList ["*.py"; "*.pyx"])
  /\ rich_options !! "includes" = Some (VStr "*.py *.pyx").
Proof.
  assert (Hv : rich_args !! "includes" = Some (VList ["*.py"; "*.pyx"]))
    by by_computation.
  split; [exact rich_options_returned|]. split; [exact Hv|].
  exact (proj1 (patterns_joined sample_ctx rich_args rich_options "includes"
                  rich_options_returned (or_introl eq_refl))
           "*.py" ["*.pyx"] Hv).
Defined.

(** The normalizer writes under no other names than those of its
    allow-list, the three names of its last rules and [enable_<f>] for
    the features named by [--enable]. *)
Theorem normalized_keys_bounded ctx args options x :
  format_gen_args ctx args = Ok options ->
  is_Some (options !! x) ->
  x ∈ gen_option_names
  \/ x ∈ late_names
  \/ exists f, f ∈ enabled_features args /\ x = "enable_" ++ f.
Proof.
  intros H. rewrite (format_gen_args_entries _ _ _ _ H).
  destruct (late_entry args x) as [v|] eqn:Hlate; simpl.
  { intros _. right. left. unfold late_entry in Hlate.
    destruct (String.eqb x "excludes") eqn:E1;
      [apply String.eqb_eq in E1 as ->; apply list_elem_of_In; simpl; tauto|].
    destruct (String.eqb x "includes") eqn:E2;
      [apply String.eqb_eq in E2 as ->; apply list_elem_of_In; simpl; tauto|].
    destruct (String.eqb x "wrap_mode") eqn:E3; [|done].
    apply String.eqb_eq in E3 as ->. apply list_elem_of_In. simpl. tauto. }
  destruct (names_feature x (enabled_features args)) eqn:Hf.
  { intros _. right. right. by apply names_feature_inv. }
  destruct (bool_decide (x ∈ gen_option_names)) eqn:Hx.
  { intros _. left. by apply bool_decide_eq_true in Hx. }
  unfold derived_entry. rewrite Hf.
  apply bool_decide_eq_false in Hx.
  destruct (String.eqb x "relative_import") eqn:E1.
  { apply String.eqb_eq in E1 as ->. exfalso.
    apply Hx, list_elem_of_In. simpl. tauto. }
  destruct (String.eqb x "mix_name") eqn:E2.
  { apply String.eqb_eq in E2 as ->. exfalso.
    apply Hx, list_elem_of_In. simpl. tauto. }
  destruct (relative_prefix args); simpl; by intros [? ?].
Qed.

Lemma normalized_keys_bounded_witness :
  format_gen_args sample_ctx rich_args = Ok rich_options
  /\ is_Some (rich_options !! "enable_jit")
  /\ ("enable_jit" ∈ gen_option_names
      \/ "enable_jit" ∈ late_names
      \/ exists f, f ∈ enabled_features rich_args /\ "enable_jit" = "enable_" ++ f).
Proof.
  assert (Hs : is_Some (rich_options !! "enable_jit"))
    by (exists (VBool true); by_computation).
  split; [exact rich_options_returned|]. split; [exact Hs|].
  exact (normalized_keys_bounded sample_ctx rich_args rich_options "enable_jit"
           rich_options_returned Hs).
Defined.

Lemma restrict_rule_witness :
  format_gen_args sample_ctx rich_args = Ok rich_options
  /\ gt_int (restrict_level rich_args) 1 = Ok false
  /\ rich_options !! "mix_name" = copied rich_args "mix_name" None.
Proof.
  assert (Hr : gt_int (restrict_level rich_args) 1 = Ok false) by by_computation.
  split; [exact rich_options_returned|]. split; [exact Hr|].
  exact (proj2 (restrict_rule_when_returned sample_ctx rich_args rich_options
                  rich_options_returned) Hr).
Defined.

(** ** The validator: what it touches and its edge cases *)

(** The state validation leaves. *)
Lemma check_gen_context_state env ctx s :
  (check_gen_context env ctx s).1 = s
  \/ exists outer,
       outer_given ctx = Some outer
       /\ path_exists env outer = false
       /\ (check_gen_context env ctx s).1 = record_call (ReadOuterInfo outer) s.
Proof.
  destruct (themida_rejected ctx) eqn:Hrej.
  - left. by rewrite check_gen_context_rejected.
  - rewrite check_gen_context_accepted by done.
    destruct (cmd_options ctx !! "no_runtime") as [v|]; [|by left].
    destruct (outer_given ctx) as [outer|]; [|left; by destruct (truthy v)].
    unfold outer_key_rule. destruct (path_exists env outer) eqn:Hex.
    + left. by destruct (path_exists env (path_join env outer (runtime_keyfile ctx))).
    + right. exists outer. split; [done|]. split; [done|].
      by destruct (answer env (ReadOuterInfo outer)) as [a|[]].
Qed.

(** Validation changes nothing but the record of outside calls, and that
    by one lookup of key metadata at most -- made only for an outer key
    reference that names no existing path.  It logs nothing. *)
Theorem validation_read_only env ctx s :
  (check_gen_context env ctx s).1 = s
  \/ exists outer,
       outer_given ctx = Some outer
       /\ path_exists env outer = false
       /\ (check_gen_context env ctx s).1 = record_call (ReadOuterInfo outer) s.
Proof. apply check_gen_context_state. Qed.

(** A context whose options hold no [no_runtime] entry does not pass
    validation: past the Windows-only rule the subscript raises
    [KeyError]. *)
Theorem validation_needs_no_runtime_entry env ctx s :
  themida_rejected ctx = false ->
  cmd_options ctx !! "no_runtime" = None ->
  check_gen_context env ctx s = (s, Raise (KeyError "no_runtime")).
Proof.
  intros Hrej Hnone. rewrite check_gen_context_accepted by done.
  by rewrite Hnone.
Qed.

Lemma validation_needs_no_runtime_entry_witness :
  themida_rejected sample_ctx = false
  /\ cmd_options sample_ctx !! "no_runtime" = None
  /\ check_gen_context (gen_env [] all_fine) sample_ctx basicConfig
     = (basicConfig, Raise (KeyError "no_runtime")).
Proof.
  split; [reflexivity|]. split; [reflexivity|].
  exact (validation_needs_no_runtime_entry (gen_env [] all_fine) sample_ctx
           basicConfig eq_refl eq_refl).
Defined.

(** An empty outer key reference counts as none: with it, validation
    depends on [no_runtime] alone and asks nothing of the file system. *)
Theorem validation_without_outer env ctx v s :
  themida_rejected ctx = false ->
  cmd_options ctx !! "no_runtime" = Some v ->
  runtime_outer ctx = None \/ runtime_outer ctx = Some "" ->
  check_gen_context env ctx s
  = if truthy v then (s, Raise no_runtime_error) else (s, Ok tt).
Proof.
  intros Hrej Hv Houter. rewrite check_gen_context_accepted by done.
  rewrite Hv. unfold outer_given. by destruct Houter as [-> | ->].
Qed.

Lemma validation_without_outer_witness :
  themida_rejected (gen_ctx [] false true (Some "")) = false
  /\ cmd_options (gen_ctx [] false true (Some "")) !! "no_runtime"
     = Some (VBool true)
  /\ runtime_outer (gen_ctx [] false true (Some "")) = Some ""
  /\ check_gen_context (gen_env [""] all_fine)
       (gen_ctx [] false true (Some "")) basicConfig
     = (basicConfig, Raise no_runtime_error).
Proof.
  split; [reflexivity|]. split; [reflexivity|]. split; [reflexivity|].
  exact (validation_without_outer (gen_env [""] all_fine)
           (gen_ctx [] false true (Some "")) (VBool true) basicConfig
           eq_refl eq_refl (or_intror eq_refl)).
Defined.

(** ** The key and runtime handlers *)

(** The name under which [_cmd_gen_key] generates the key: the second
    input when there is one, the identifier of the context otherwise. *)
Definition key_name (ctx : Context) (extras : list string) : string :=
  match extras with
  | [] => runtime_keyid ctx
  | name :: _ => name
  end.

(** Past its arity check, [_cmd_gen_key] starts by asking the engine
    for the key. *)
Lemma _cmd_gen_key_start env ctx options tok extras s :
  options !! "inputs" = Some (VList (tok :: extras)) ->
  (length extras <= 1)%nat ->
  _cmd_gen_key env ctx options s =
    (data <~ extern env (GenerateRuntimeKey (key_name ctx extras)) ;;
     output <~ lift (as_str (dict_get options "output" (VStr "dist"))) ;;
     extern env (Makedirs output) ;;;
     log INFO (LText "write %s"
                 [VStr (path_join env output (key_name ctx extras))]) ;;;
     extern env (WriteFile (path_join env output (key_name ctx extras)) data) ;;;
     log INFO (LText "generate outer runtime key OK" []))
      (logger_log INFO
         (LText ("start to generate outer runtime key " ++ dq ++ "%s" ++ dq)
            [VStr (key_name ctx extras)]) s).
Proof.
  intros Hin Hlen. unfold _cmd_gen_key. unfold bind at 1. unfold lift at 1.
  unfold getitem. rewrite Hin. unfold bind at 1. unfold lift at 1.
  destruct extras as [|name [|more extras]]; [| |simpl in Hlen; lia];
    reflexivity.
Qed.

(** With exactly one extra token, that token names the key: it is what
    the engine is asked for and the file name under the output path
    (["dist"] unless [--output] says otherwise). *)
Theorem gen_key_named env ctx options tok name data out a1 a2 s :
  options !! "inputs" = Some (VList [tok; name]) ->
  answer env (GenerateRuntimeKey name) = Ok data ->
  as_str (dict_get options "output" (VStr "dist")) = Ok out ->
  answer env (Makedirs out) = Ok a1 ->
  answer env (WriteFile (path_join env out name) data) = Ok a2 ->
  exists s',
    _cmd_gen_key env ctx options s = (s', Ok tt)
    /\ calls s'
       = (calls s ++ [GenerateRuntimeKey name; Makedirs out;
                      WriteFile (path_join env out name) data])%list.
Proof.
  intros Hin Hdata Hout Hmk Hwr.
  rewrite (_cmd_gen_key_start _ _ _ _ _ _ Hin) by (simpl; lia).
  unfold bind, lift, extern, log. cbn [key_name].
  rewrite Hdata, Hout, Hmk, Hwr. eexists. split; [reflexivity|].
  repeat (rewrite calls_record_call || rewrite calls_logger_log).
  by rewrite <- !app_assoc.
Qed.

Lemma gen_key_named_witness :
  inputs_options ["key"; "my.key"] !! "inputs" = Some (VList ["key"; "my.key"])
  /\ as_str (dict_get (inputs_options ["key"; "my.key"]) "output" (VStr "dist"))
     = Ok "dist"
  /\ exists s',
       _cmd_gen_key (gen_env [] all_fine) sample_ctx
         (inputs_options ["key"; "my.key"]) basicConfig = (s', Ok tt)
       /\ calls s'
          = (calls basicConfig
             ++ [GenerateRuntimeKey "my.key"; Makedirs "dist";
                 WriteFile (path_join (gen_env [] all_fine) "dist" "my.key")
                   VNone])%list.
Proof.
  split; [reflexivity|]. split; [reflexivity|].
  exact (gen_key_named (gen_env [] all_fine) sample_ctx
           (inputs_options ["key"; "my.key"]) "key" "my.key" VNone "dist"
           VNone VNone basicConfig eq_refl eq_refl eq_refl eq_refl eq_refl).
Defined.

(** When the engine fails to generate the key, the failure is passed on
    and nothing is created: no directory, no file. *)
Theorem gen_key_engine_failure env ctx options tok extras e s :
  options !! "inputs" = Some (VList (tok :: extras)) ->
  (length extras <= 1)%nat ->
  answer env (GenerateRuntimeKey (key_name ctx extras)) = Raise e ->
  exists s',
    _cmd_gen_key env ctx options s = (s', Raise e)
    /\ calls s' = (calls s ++ [GenerateRuntimeKey (key_name ctx extras)])%list.
Proof.
  intros Hin Hlen Hdata.
  rewrite (_cmd_gen_key_start _ _ _ _ _ _ Hin Hlen).
  unfold bind at 1. unfold extern at 1. rewrite Hdata.
  eexists. split; [reflexivity|].
  by rewrite calls_record_call, calls_logger_log.
Qed.

Definition engine_fails (c : call) : result value :=
  match c with
  | GenerateRuntimeKey _ => Raise (OtherException "RuntimeError" "no license")
  | _ => Ok VNone
  end.

Lemma gen_key_engine_failure_witness :
  inputs_options ["key"] !! "inputs" = Some (VList ["key"])
  /\ (length (@nil string) <= 1)%nat
  /\ exists s',
       _cmd_gen_key (gen_env [] engine_fails) sample_ctx
         (inputs_options ["key"]) basicConfig
       = (s', Raise (OtherException "RuntimeError" "no license"))
       /\ calls s'
          = (calls basicConfig ++ [GenerateRuntimeKey "pyarmor.ikey"])%list.
Proof.
  split; [reflexivity|]. split; [simpl; lia|].
  apply (gen_key_engine_failure (gen_env [] engine_fails) sample_ctx
           (inputs_options ["key"]) "key" []
           (OtherException "RuntimeError" "no license") basicConfig eq_refl);
    [simpl; lia|reflexivity].
Defined.

(** With any extra token the runtime handler raises a [CliError] that
    lists the extra tokens, before anything is logged or asked of the
    engine. *)
Theorem gen_runtime_extra_args env ctx options tok x extras s :
  options !! "inputs" = Some (VList (tok :: x :: extras)) ->
  _cmd_gen_runtime env ctx options s
  = (s, Raise (CliError [VFormat "too many args %s" (VList (x :: extras))])).
Proof.
  intros Hin. unfold _cmd_gen_runtime, bind, lift, getitem. rewrite Hin.
  cbn [py_len].
  assert ((1 <? Z.of_nat (length (tok :: x :: extras))) = true) as ->
    by (apply Z.ltb_lt; simpl length; lia).
  reflexivity.
Qed.

Lemma gen_runtime_extra_args_witness :
  inputs_options ["runtime"; "a"] !! "inputs" = Some (VList ["runtime"; "a"])
  /\ _cmd_gen_runtime (gen_env [] all_fine) sample_ctx
       (inputs_options ["runtime"; "a"]) basicConfig
     = (basicConfig, Raise (CliError [VFormat "too many args %s" (VList ["a"])])).
Proof.
  split; [reflexivity|].
  exact (gen_runtime_extra_args (gen_env [] all_fine) sample_ctx
           (inputs_options ["runtime"; "a"]) "runtime" "a" [] basicConfig eq_refl).
Defined.

(** With the sub-token alone the runtime handler has the engine build
    the package in the output path (["dist"] by default) and then writes
    the runtime key of the context there, under the key file name of the
    context; it makes no other outside call. *)
Theorem gen_runtime_writes_key env ctx options tok out a1 a2 s :
  options !! "inputs" = Some (VList [tok]) ->
  dict_get options "output" (VStr "dist") = VStr out ->
  answer env (GenerateRuntime (VStr out)) = Ok a1 ->
  answer env (WriteFile (path_join env out (runtime_keyfile ctx)) (runtime_key ctx))
  = Ok a2 ->
  exists s',
    _cmd_gen_runtime env ctx options s = (s', Ok tt)
    /\ calls s'
       = (calls s
          ++ [GenerateRuntime (VStr out);
              WriteFile (path_join env out (runtime_keyfile ctx))
                (runtime_key ctx)])%list.
Proof.
  intros Hin Hout Hgen Hwr.
  unfold _cmd_gen_runtime, bind, lift, getitem, extern, log. rewrite Hin.
  cbn [py_len length]. change (1 <? Z.of_nat 1) with false. cbv beta iota zeta.
  rewrite Hout, Hgen. cbn [as_str]. rewrite Hwr.
  eexists. split; [reflexivity|].
  repeat (rewrite calls_record_call || rewrite calls_logger_log).
  by rewrite <- !app_assoc.
Qed.

Lemma gen_runtime_writes_key_witness :
  inputs_options ["runtime"] !! "inputs" = Some (VList ["runtime"])
  /\ dict_get (inputs_options ["runtime"]) "output" (VStr "dist") = VStr "dist"
  /\ exists s',
       _cmd_gen_runtime (gen_env [] all_fine) sample_ctx
         (inputs_options ["runtime"]) basicConfig = (s', Ok tt)
       /\ calls s'
          = (calls basicConfig
             ++ [GenerateRuntime (VStr "dist");
                 WriteFile (path_join (gen_env [] all_fine) "dist"
                              (runtime_keyfile sample_ctx))
                   (runtime_key sample_ctx)])%list.
Proof.
  split; [reflexivity|]. split; [reflexivity|].
  exact (gen_runtime_writes_key (gen_env [] all_fine) sample_ctx
           (inputs_options ["runtime"]) "runtime" "dist" VNone VNone basicConfig
           eq_refl eq_refl eq_refl eq_refl).
Defined.

(** ** The [cfg] and [reg] commands *)

(** The destinations [cfg_parser] declares; its [store_true] flags have
    no [default=None] and so default to [False], the optional positional
    [section] to [None] and the repeated positional [options] to the
    empty list. *)
Record CfgFlags := {
  c_name : option string;
  c_global : bool;
  c_remove : bool;
  c_clear : bool;
  c_encoding : option string;
  c_section : option string;
  c_options : list string;
}.

(** [--remove] and [--clear] form an exclusive group. *)
Definition wf_cfg_flags (c : CfgFlags) : bool := negb (c_remove c && c_clear c).

Definition cfg_namespace (m : MainFlags) (c : CfgFlags) : Namespace :=
  list_to_map [
    ("version", VBool (m_version m));
    ("silent", VBool (m_silent m));
    ("debug", VBool (m_debug m));
    ("interactive", VBool (m_interactive m));
    ("home", opt_str (m_home m));
    ("name", opt_str (c_name c));
    ("scope", VBool (c_global c));
    ("remove", VBool (c_remove c));
    ("clear", VBool (c_clear c));
    ("encoding", opt_str (c_encoding c));
    ("section", opt_str (c_section c));
    ("options", VList (c_options c));
    ("func", VFunc "cmd_cfg")
  ].

(** The destinations [reg_parser] declares; [regfile] has [nargs=1] and
    so holds a list of one name. *)
Record RegFlags := {
  r_regname : option string;
  r_product : option string;
  r_upgrade : bool;
  r_dry : bool;
  r_regfile : string;
}.

Definition reg_namespace (m : MainFlags) (r : RegFlags) : Namespace :=
  list_to_map [
    ("version", VBool (m_version m));
    ("silent", VBool (m_silent m));
    ("debug", VBool (m_debug m));
    ("interactive", VBool (m_interactive m));
    ("home", opt_str (m_home m));
    ("regname", opt_str (r_regname r));
    ("product", opt_str (r_product r));
    ("upgrade", VBool (r_upgrade r));
    ("dry", VBool (r_dry r));
    ("regfile", VList [r_regfile r]);
    ("func", VFunc "cmd_reg")
  ].

(** The method of the [Configer] that [cmd_cfg] calls. *)
Definition cfg_mode (c : CfgFlags) : string :=
  if c_clear c then "clear" else if c_remove c then "remove" else "run".

Definition cfg_call (c : CfgFlags) : call :=
  ConfigerCall (cfg_mode c) (opt_str (c_section c)) (VList (c_options c))
    (negb (c_global c)) (opt_str (c_name c)).

(** A name given as the empty string counts as not given. *)
Definition or_default (o : option string) (d : string) : string :=
  match o with
  | Some s => if String.eqb s "" then d else s
  | None => d
  end.

Definition reg_call (r : RegFlags) : call :=
  RegisterCall (if r_upgrade r then "upgrade" else "register")
    (VList [r_regfile r])
    (VStr (or_default (r_regname r) ""))
    (VStr (or_default (r_product r) "non-profits")).

Lemma truthy_opt_str_default o d :
  (if truthy (opt_str o) then opt_str o else VStr d) = VStr (or_default o d).
Proof. destruct o as [[|c s]|]; reflexivity. Qed.

(** For every command line the [cfg] parser accepts, [cmd_cfg] creates
    one [Configer] with the given encoding and calls one method of it:
    [clear] under [--clear], [remove] under [--remove], [run] otherwise,
    on the local store unless [--global] is given.  What that method
    raises is passed on. *)
Theorem cfg_mode_selected env ctx m c a s :
  answer env (NewConfiger (opt_str (c_encoding c))) = Ok a ->
  cmd_cfg env ctx (cfg_namespace m c) s
  = (record_call (cfg_call c)
       (record_call (NewConfiger (opt_str (c_encoding c))) s),
     match answer env (cfg_call c) with
     | Ok _ => Ok tt
     | Raise e => Raise e
     end).
Proof.
  intros Ha. unfold cmd_cfg.
  assert (getattr (cfg_namespace m c) "scope" = Ok (VBool (c_global c))) as ->
    by by_computation.
  rewrite bind_lift_Ok.
  assert (getattr (cfg_namespace m c) "encoding" = Ok (opt_str (c_encoding c)))
    as -> by by_computation.
  rewrite bind_lift_Ok. unfold bind at 1. unfold extern at 1. rewrite Ha.
  assert (getattr (cfg_namespace m c) "clear" = Ok (VBool (c_clear c))) as ->
    by by_computation.
  rewrite bind_lift_Ok.
  assert (getattr (cfg_namespace m c) "remove" = Ok (VBool (c_remove c))) as Hrem
    by by_computation.
  assert (getattr (cfg_namespace m c) "section" = Ok (opt_str (c_section c)))
    as Hsec by by_computation.
  assert (getattr (cfg_namespace m c) "options" = Ok (VList (c_options c)))
    as Hopt by by_computation.
  assert (getattr (cfg_namespace m c) "name" = Ok (opt_str (c_name c)))
    as Hname by by_computation.
  unfold cfg_call, cfg_mode.
  destruct (c_clear c), (c_remove c), (c_global c); cbn [truthy];
    unfold bind, ret, lift, extern; rewrite ?Hrem, Hsec, Hopt, Hname;
    cbn [truthy negb String.eqb Ascii.eqb Bool.eqb];
    match goal with |- context [answer env ?c] =>
      destruct (answer env c) as [?|?] end; reflexivity.
Qed.

Lemma cfg_mode_selected_witness :
  answer (gen_env [] all_fine) (NewConfiger VNone) = Ok VNone
  /\ cmd_cfg (gen_env [] all_fine) sample_ctx
       (cfg_namespace no_main_flags
          {| c_name := None; c_global := true; c_remove := true;
             c_clear := false; c_encoding := None;
             c_section := Some "builder"; c_options := ["outer"] |})
       basicConfig
     = (record_call
          (ConfigerCall "remove" (VStr "builder") (VList ["outer"]) false VNone)
          (record_call (NewConfiger VNone) basicConfig),
        Ok tt).
Proof.
  split; [reflexivity|].
  exact (cfg_mode_selected (gen_env [] all_fine) sample_ctx no_main_flags
           {| c_name := None; c_global := true; c_remove := true;
              c_clear := false; c_encoding := None;
              c_section := Some "builder"; c_options := ["outer"] |}
           VNone basicConfig eq_refl).
Defined.

(** For every command line the [reg] parser accepts, [cmd_reg] picks
    the dry-run register under [--dry] and the real one otherwise, lets
    it check the arguments, and then calls [upgrade] under [--upgrade]
    and [register] otherwise, with the empty registration name and the
    product ["non-profits"] standing in for names not given (or given
    empty).  If the check raises, no registration is attempted. *)
Theorem reg_call_made env ctx m r a s :
  answer env (NewRegister (r_dry r)) = Ok a ->
  (forall e,
     answer env RegisterCheckArgs = Raise e ->
     cmd_reg env ctx (reg_namespace m r) s
     = (record_call RegisterCheckArgs (record_call (NewRegister (r_dry r)) s),
        Raise e))
  /\ (forall b,
        answer env RegisterCheckArgs = Ok b ->
        calls (cmd_reg env ctx (reg_namespace m r) s).1
        = (calls s ++ [NewRegister (r_dry r); RegisterCheckArgs; reg_call r])%list
        /\ (cmd_reg env ctx (reg_namespace m r) s).2
           = match answer env (reg_call r) with
             | Ok _ => Ok tt
             | Raise e => Raise e
             end).
Proof.
  intros Ha. unfold cmd_reg.
  assert (getattr (reg_namespace m r) "regfile" = Ok (VList [r_regfile r])) as ->
    by by_computation.
  assert (getattr (reg_namespace m r) "regname" = Ok (opt_str (r_regname r)))
    as -> by by_computation.
  assert (getattr (reg_namespace m r) "product" = Ok (opt_str (r_product r)))
    as -> by by_computation.
  assert (getattr (reg_namespace m r) "dry" = Ok (VBool (r_dry r))) as ->
    by by_computation.
  assert (getattr (reg_namespace m r) "upgrade" = Ok (VBool (r_upgrade r)))
    as -> by by_computation.
  unfold bind, lift, extern, log. cbv beta iota zeta.
  rewrite !truthy_opt_str_default. cbn [truthy]. rewrite Ha.
  fold (reg_call r).
  split.
  - intros e ->. reflexivity.
  - intros b ->. destruct (answer env (reg_call r)) as [c|e]; cbn [fst snd].
    + split; [|done].
      repeat (rewrite calls_record_call || rewrite calls_logger_log).
      by rewrite <- !app_assoc.
    + split; [|done]. rewrite !calls_record_call. by rewrite <- !app_assoc.
Qed.

Definition check_fails (c : call) : result value :=
  match c with
  | RegisterCheckArgs => Raise (CliError [VStr "no registration file"])
  | _ => Ok VNone
  end.

Lemma reg_call_made_witness :
  answer (gen_env [] check_fails) (NewRegister true) = Ok VNone
  /\ answer (gen_env [] check_fails) RegisterCheckArgs
     = Raise (CliError [VStr "no registration file"])
  /\ cmd_reg (gen_env [] check_fails) sample_ctx
       (reg_namespace no_main_flags
          {| r_regname := None; r_product := Some ""; r_upgrade := false;
             r_dry := true; r_regfile := "pyarmor-regcode-1.txt" |})
       basicConfig
     = (record_call RegisterCheckArgs (record_call (NewRegister true) basicConfig),
        Raise (CliError [VStr "no registration file"])).
Proof.
  split; [reflexivity|]. split; [reflexivity|].
  exact (proj1 (reg_call_made (gen_env [] check_fails) sample_ctx no_main_flags
                  {| r_regname := None; r_product := Some ""; r_upgrade := false;
                     r_dry := true; r_regfile := "pyarmor-regcode-1.txt" |}
                  VNone basicConfig eq_refl)
           (CliError [VStr "no registration file"]) eq_refl).
Defined.

(** ** The home path *)

(** The path [get_home] settles on before expansion: the [--home] value
    unless empty, else the environment variable unless unset or empty,
    else [~/.pyarmor]. *)
Definition chosen_home (env : Env) (flag : option string) : string :=
  or_default (Some (or_default flag (default "" (getenv env "PYARMOR_HOME"))))
    (path_join env "~" ".pyarmor").


(** The home path is the expansion of the first of: a non-empty
    [--home], a non-empty [PYARMOR_HOME], the default [~/.pyarmor]. *)
Theorem home_precedence env args flag :
  args !! "home" = Some (opt_str flag) ->
  get_home env args = Ok (expand_path env (chosen_home env flag))
  /\ (forall h, flag = Some h -> h <> "" -> chosen_home env flag = h)
  /\ (flag = None \/ flag = Some "" ->
      forall v, getenv env "PYARMOR_HOME" = Some v -> v <> "" ->
                chosen_home env flag = v)
  /\ (flag = None \/ flag = Some "" ->
      getenv env "PYARMOR_HOME" = None \/ getenv env "PYARMOR_HOME" = Some "" ->
      chosen_home env flag = path_join env "~" ".pyarmor").
Proof.
  intros Hh. split; [|split; [|split]].
  - unfold get_home, getattr. rewrite Hh. unfold chosen_home.
    destruct flag as [[|c h]|]; reflexivity.
  - intros h -> Hne. unfold chosen_home. simpl.
    apply String.eqb_neq in Hne. by rewrite !Hne.
  - intros Hflag v Hv Hne. unfold chosen_home. rewrite Hv. simpl.
    apply String.eqb_neq in Hne.
    destruct Hflag as [-> | ->]; simpl; by rewrite Hne.
  - intros Hflag Hv. unfold chosen_home.
    destruct Hflag as [-> | ->], Hv as [-> | ->]; reflexivity.
Qed.

Definition home_env (var : option string) : Env :=
  {| parse_args := fun _ => Raise (SystemExit 2);
     python_version := (3, 11, 0);
     getenv := fun name => if String.eqb name "PYARMOR_HOME" then var else None;
     expand_path := fun p => p;
     path_join := fun a b => a ++ "/" ++ b;
     path_exists := fun _ => false;
     new_context := fun _ => sample_ctx;
     push := sample_push;
     answer := all_fine;
     str_lower := lower;
     log_opens := fun _ => true |}.

Lemma home_precedence_witness :
  gen_foo no_main_flags !! "home" = Some (opt_str None)
  /\ getenv (home_env (Some "/opt/pyarmor")) "PYARMOR_HOME" = Some "/opt/pyarmor"
  /\ get_home (home_env (Some "/opt/pyarmor")) (gen_foo no_main_flags)
     = Ok (expand_path (home_env (Some "/opt/pyarmor"))
             (chosen_home (home_env (Some "/opt/pyarmor")) None))
  /\ chosen_home (home_env (Some "/opt/pyarmor")) None = "/opt/pyarmor".
Proof.
  assert (Hh : gen_foo no_main_flags !! "home" = Some (opt_str None))
    by by_computation.
  assert (Hne : "/opt/pyarmor" <> "") by discriminate.
  split; [exact Hh|]. split; [reflexivity|].
  split.
  - exact (proj1 (home_precedence (home_env (Some "/opt/pyarmor"))
                    (gen_foo no_main_flags) None Hh)).
  - exact (proj1 (proj2 (proj2 (home_precedence (home_env (Some "/opt/pyarmor"))
                                  (gen_foo no_main_flags) None Hh)))
             (or_introl eq_refl) "/opt/pyarmor" eq_refl Hne).
Defined.

(** ** Verbosity settings *)

(** The state [log_settings] leaves. *)
Lemma log_settings_result ctx args d q s :
  args !! "debug" = Some d ->
  args !! "silent" = Some q ->
  exists s',
    log_settings ctx args s = (s', Ok tt)
    /\ root_level s'
       = (if truthy q then 100 else if truthy d then DEBUG else root_level s)
    /\ root_handlers s'
       = (root_handlers s
          ++ if truthy d
             then [FileHandler (debug_logfile ctx) "%(asctime)s %(message)s" DEBUG]
             else [])%list
    /\ logfiles s'
       = (if truthy d then <[debug_logfile ctx := []]> (logfiles s)
          else logfiles s)
    /\ console s' = console s
    /\ calls s' = calls s.
Proof.
  intros Hd Hq. unfold log_settings, getattr, bind, lift, ret.
  rewrite Hd, Hq.
  destruct (truthy d), (truthy q); simpl; eexists;
    (split; [reflexivity|]); simpl; rewrite ?app_nil_r; done.
Qed.




(** ** The entry point, step by step *)

Definition supported_python (env : Env) : bool :=
  let '(major, minor, _) := python_version env in
  negb ((major =? 2) || (minor <? 7)).

(** What [main_entry] does once the context exists and the verbosity is
    set: the rest of its body, with the names it has bound by then. *)
Definition run_command (env : Env) (args : Namespace) (home : string) : M unit :=
  let '(major, minor, micro) := python_version env in
  let ctx := new_context env home in
  version <~ lift (getattr args "version") ;;
  (if truthy version then print_version env ctx ;;; raise (SystemExit 0)
   else ret tt) ;;;
  interactive <~ lift (getattr args "interactive") ;;
  if truthy interactive then
    extern env ShellCmdloop ;;; ret tt
  else
    log INFO (LText "Python %d.%d.%d" [VInt major; VInt minor; VInt micro]) ;;;
    log INFO (LText "Pyarmor %s" [VStr (version_info ctx)]) ;;;
    log DEBUG (LText "native platform %s" [VStr (native_platform ctx)]) ;;;
    log DEBUG (LText "home path: %s" [VStr home]) ;;;
    match args !! "func" with
    | Some f => call_func env f ctx args
    | None => extern env PrintHelp ;;; ret tt
    end.

(** [main_entry] up to the creation of the context. *)
Lemma main_entry_start env argv args home a s :
  parse_args env argv = Ok args ->
  supported_python env = true ->
  get_home env args = Ok home ->
  answer env (NewContext home) = Ok a ->
  main_entry env argv s
  = (log_settings (new_context env home) args ;;; run_command env args home)
      (record_call (NewContext home) s).
Proof.
  intros Hparse Hpy Hhome Ha. unfold main_entry, run_command, supported_python in *.
  rewrite Hparse, bind_lift_Ok.
  destruct (python_version env) as [[major minor] micro].
  apply negb_true_iff in Hpy. rewrite Hpy, Hhome, bind_lift_Ok.
  unfold bind at 1. unfold extern at 1. by rewrite Ha.
Qed.

(** On Python 2 and on every Python whose second version number is
    below 7 -- 3.6, but 4.0 as well -- any command line that parses is
    refused with a [CliError] before the home path is looked at, the
    context created or the verbosity set. *)
Theorem python_version_gate env argv args s :
  parse_args env argv = Ok args ->
  supported_python env = false ->
  main_entry env argv s
  = (s, Raise (CliError [VStr "only Python 3.7+ is supported now"])).
Proof.
  intros Hparse Hpy. unfold main_entry, supported_python in *.
  rewrite Hparse, bind_lift_Ok.
  destruct (python_version env) as [[major minor] micro].
  apply negb_false_iff in Hpy. by rewrite Hpy.
Qed.

Lemma python_version_gate_witness :
  parse_args (with_python (4, 0, 0) (gen_foo_env silent_flags))
    (gen_foo_argv silent_flags) = Ok (gen_foo silent_flags)
  /\ supported_python (with_python (4, 0, 0) (gen_foo_env silent_flags)) = false
  /\ main_entry (with_python (4, 0, 0) (gen_foo_env silent_flags))
       (gen_foo_argv silent_flags) basicConfig
     = (basicConfig, Raise (CliError [VStr "only Python 3.7+ is supported now"])).
Proof.
  split; [reflexivity|]. split; [reflexivity|].
  exact (python_version_gate (with_python (4, 0, 0) (gen_foo_env silent_flags))
           (gen_foo_argv silent_flags) (gen_foo silent_flags) basicConfig
           eq_refl eq_refl).
Defined.

(** ** Runs that end before a command *)




(** [pyarmor -v ...]: the version is printed and the process exits with
    status 0 right away -- nothing is logged and no command runs,
    whatever else the command line holds. *)
Theorem version_flag_exits_zero env argv args home a b d q v :
  parse_args env argv = Ok args ->
  supported_python env = true ->
  get_home env args = Ok home ->
  answer env (NewContext home) = Ok a ->
  args !! "debug" = Some d ->
  args !! "silent" = Some q ->
  args !! "version" = Some v ->
  truthy v = true ->
  answer env PrintVersion = Ok b ->
  (main env argv).2 = 0
  /\ calls (main env argv).1 = [NewContext home; PrintVersion]
  /\ console (main env argv).1 = [].
Proof.
  intros Hparse Hpy Hhome Ha Hd Hq Hv Htrue Hb.
  destruct (log_settings_result (new_context env home) args d q
              (record_call (NewContext home) basicConfig) Hd Hq)
    as (s' & Hset & _ & _ & _ & Hcon & Hcalls).
  assert (Hrun : main_entry env argv basicConfig
                 = (record_call PrintVersion s', Raise (SystemExit 0))).
  { rewrite (main_entry_start _ _ _ _ _ _ Hparse Hpy Hhome Ha).
    unfold bind at 1. rewrite Hset. unfold run_command.
    destruct (python_version env) as [[major minor] micro]. cbv zeta.
    rewrite (getattr_lookup _ _ _ Hv), bind_lift_Ok, Htrue.
    unfold print_version, bind, extern, ret, raise. by rewrite Hb. }
  unfold main, main_from. rewrite Hrun.
  cbn [is_Exception fst snd calls console record_call].
  by rewrite Hcon, Hcalls.
Qed.

Definition version_flags : MainFlags :=
  {| m_version := true; m_silent := false; m_debug := false;
     m_interactive := false; m_home := None |}.

(** [pyarmor -v], which sets no sub-command attributes. *)
Definition bare_namespace (m : MainFlags) : Namespace :=
  list_to_map [
    ("version", VBool (m_version m));
    ("silent", VBool (m_silent m));
    ("debug", VBool (m_debug m));
    ("interactive", VBool (m_interactive m));
    ("home", opt_str (m_home m))
  ].

Definition bare_env (m : MainFlags) : Env :=
  sample_env (Ok (bare_namespace m)) [] all_fine.

Lemma version_flag_exits_zero_witness :
  parse_args (bare_env version_flags) ["-v"] = Ok (bare_namespace version_flags)
  /\ supported_python (bare_env version_flags) = true
  /\ get_home (bare_env version_flags) (bare_namespace version_flags)
     = Ok "~/.pyarmor"
  /\ bare_namespace version_flags !! "version" = Some (VBool true)
  /\ (main (bare_env version_flags) ["-v"]).2 = 0
  /\ calls (main (bare_env version_flags) ["-v"]).1
     = [NewContext "~/.pyarmor"; PrintVersion]
  /\ console (main (bare_env version_flags) ["-v"]).1 = [].
Proof.
  assert (Hhome : get_home (bare_env version_flags) (bare_namespace version_flags)
                  = Ok "~/.pyarmor") by by_computation.
  assert (Hd : bare_namespace version_flags !! "debug" = Some (VBool false))
    by by_computation.
  assert (Hq : bare_namespace version_flags !! "silent" = Some (VBool false))
    by by_computation.
  assert (Hv : bare_namespace version_flags !! "version" = Some (VBool true))
    by by_computation.
  split; [reflexivity|]. split; [reflexivity|]. split; [exact Hhome|].
  split; [exact Hv|].
  exact (version_flag_exits_zero (bare_env version_flags) ["-v"]
           (bare_namespace version_flags) "~/.pyarmor" VNone VNone
           (VBool false) (VBool false) (VBool true)
           eq_refl eq_refl Hhome eq_refl Hd Hq Hv eq_refl eq_refl).
Defined.

(** A command line without a sub-command (no [func] attribute) that
    asks neither for the version nor for the shell gets the help text
    and exit status 0; no command runs. *)
Theorem no_command_prints_help env argv args home a b d q v i :
  parse_args env argv = Ok args ->
  supported_python env = true ->
  get_home env args = Ok home ->
  answer env (NewContext home) = Ok a ->
  args !! "debug" = Some d ->
  args !! "silent" = Some q ->
  args !! "version" = Some v ->
  truthy v = false ->
  args !! "interactive" = Some i ->
  truthy i = false ->
  args !! "func" = None ->
  answer env PrintHelp = Ok b ->
  (main env argv).2 = 0
  /\ calls (main env argv).1 = [NewContext home; PrintHelp].
Proof.
  intros Hparse Hpy Hhome Ha Hd Hq Hv Hvf Hi Hif Hfunc Hb.
  destruct (log_settings_result (new_context env home) args d q
              (record_call (NewContext home) basicConfig) Hd Hq)
    as (s' & Hset & _ & _ & _ & _ & Hcalls).
  assert (Hrun : exists s1,
             main_entry env argv basicConfig = (s1, Ok tt)
             /\ calls s1 = [NewContext home; PrintHelp]).
  { rewrite (main_entry_start _ _ _ _ _ _ Hparse Hpy Hhome Ha).
    unfold bind at 1. rewrite Hset. unfold run_command.
    destruct (python_version env) as [[major minor] micro]. cbv zeta.
    rewrite (getattr_lookup _ _ _ Hv), bind_lift_Ok, Hvf.
    unfold bind at 1. unfold ret at 1.
    rewrite (getattr_lookup _ _ _ Hi), bind_lift_Ok, Hif, Hfunc.
    unfold bind, log, extern, ret. rewrite Hb. eexists. split; [reflexivity|].
    repeat (rewrite calls_record_call || rewrite calls_logger_log).
    by rewrite Hcalls. }
  destruct Hrun as (s1 & Hrun & Hcalls1).
  unfold main, main_from. by rewrite Hrun.
Qed.

Lemma no_command_prints_help_witness :
  parse_args (bare_env no_main_flags) [] = Ok (bare_namespace no_main_flags)
  /\ supported_python (bare_env no_main_flags) = true
  /\ get_home (bare_env no_main_flags) (bare_namespace no_main_flags)
     = Ok "~/.pyarmor"
  /\ bare_namespace no_main_flags !! "func" = None
  /\ (main (bare_env no_main_flags) []).2 = 0
  /\ calls (main (bare_env no_main_flags) []).1
     = [NewContext "~/.pyarmor"; PrintHelp].
Proof.
  assert (Hhome : get_home (bare_env no_main_flags) (bare_namespace no_main_flags)
                  = Ok "~/.pyarmor") by by_computation.
  assert (Hd : bare_namespace no_main_flags !! "debug" = Some (VBool false))
    by by_computation.
  assert (Hq : bare_namespace no_main_flags !! "silent" = Some (VBool false))
    by by_computation.
  assert (Hv : bare_namespace no_main_flags !! "version" = Some (VBool false))
    by by_computation.
  assert (Hi : bare_namespace no_main_flags !! "interactive" = Some (VBool false))
    by by_computation.
  assert (Hf : bare_namespace no_main_flags !! "func" = None) by by_computation.
  split; [reflexivity|]. split; [reflexivity|]. split; [exact Hhome|].
  split; [exact Hf|].
  exact (no_command_prints_help (bare_env no_main_flags) []
           (bare_namespace no_main_flags) "~/.pyarmor" VNone VNone
           (VBool false) (VBool false) (VBool false) (VBool false)
           eq_refl eq_refl Hhome eq_refl Hd Hq Hv eq_refl Hi eq_refl Hf eq_refl).
Defined.

(** ** Every [gen] command line *)



(** ** Failures in silent mode *)

(** A record below the level of the root logger changes nothing. *)
Lemma logger_log_off level msg s :
  level < root_level s -> logger_log level msg s = s.
Proof. intros H. unfold logger_log. by apply Z.leb_gt in H as ->. Qed.

Lemma error_log_exception_off e s :
  ERROR < root_level s -> error_log_exception e s = s.
Proof. intros H. unfold error_log_exception. by apply Z.leb_gt in H as ->. Qed.

(** When the run is silenced, a failure leaves no log record anywhere:
    the console handler gets neither the pointer nor the error line, and
    the error log is emptied but receives nothing -- the logger
    [Pyarmor.Error] has no level of its own and is switched off together
    with the root logger.  The exit status is 2.  When the error log
    cannot be opened the file is left as it was and the exit status is
    1. *)
Theorem silenced_failure_leaves_no_trace env argv s1 e :
  main_entry env argv basicConfig = (s1, Raise e) ->
  is_Exception e = true ->
  CRITICAL < root_level s1 ->
  console (main env argv).1 = console s1
  /\ (log_opens env error_logfile = true ->
      (main env argv).2 = 2
      /\ logfiles (main env argv).1 !! error_logfile = Some [])
  /\ (log_opens env error_logfile = false ->
      (main env argv).2 = 1 /\ (main env argv).1 = s1).
Proof.
  intros Hmain Hexc Hlevel. unfold main, main_from. rewrite Hmain, Hexc.
  assert (Herr : ERROR < root_level s1) by (unfold CRITICAL, ERROR in *; lia).
  unfold log_exception. cbv zeta.
  rewrite (logger_log_off CRITICAL) by done.
  destruct (log_opens env error_logfile).
  - rewrite error_log_exception_off by done.
    rewrite logger_log_off by done.
    split; [done|]. split; [|done]. intros _. split; [done|].
    apply lookup_insert_eq.
  - split; [done|]. split; [done|]. by intros _.
Qed.

Lemma silenced_failure_leaves_no_trace_witness :
  main_entry (gen_foo_env silent_flags) (gen_foo_argv silent_flags) basicConfig
  = (gen_foo_state silent_flags, Raise (AttributeError "obj_module"))
  /\ CRITICAL < root_level (gen_foo_state silent_flags)
  /\ log_opens (gen_foo_env silent_flags) error_logfile = true
  /\ console (main (gen_foo_env silent_flags) (gen_foo_argv silent_flags)).1
     = console (gen_foo_state silent_flags)
  /\ (main (gen_foo_env silent_flags) (gen_foo_argv silent_flags)).2 = 2
  /\ logfiles (main (gen_foo_env silent_flags) (gen_foo_argv silent_flags)).1
     !! error_logfile = Some [].
Proof.
  assert (Hmain : main_entry (gen_foo_env silent_flags)
                    (gen_foo_argv silent_flags) basicConfig
                  = (gen_foo_state silent_flags,
                     Raise (AttributeError "obj_module"))) by by_computation.
  assert (Hlevel : CRITICAL < root_level (gen_foo_state silent_flags))
    by (apply Z.ltb_lt; by_computation).
  pose proof (silenced_failure_leaves_no_trace (gen_foo_env silent_flags)
                (gen_foo_argv silent_flags) (gen_foo_state silent_flags)
                (AttributeError "obj_module") Hmain eq_refl Hlevel)
    as (Hcon & Hopen & _).
  split; [exact Hmain|]. split; [exact Hlevel|]. split; [reflexivity|].
  split; [exact Hcon|]. exact (Hopen eq_refl).
Defined.

(** ** The error log belongs to the handler of [main] *)






(** ** Invariants under the levels the program logs at *)

Section Levels.

Variable env : Env.
Variable I : Sys -> Prop.
Hypothesis I_log :
  forall level msg s, level <= CRITICAL -> I s -> I (logger_log level msg s).
Hypothesis I_call : forall c s, I s -> I (record_call c s).











End Levels.

(** ** Silent mode *)





(** ** More on the generation command *)

(** A context that fails validation stops the command there: the
    failure is passed on as it is, and neither the Builder is created nor
    a handler run -- the overlay and the validator's own lookup are the
    only outside calls. *)
Theorem validation_failure_stops_gen env ctx args options a s s1 e :
  format_gen_args ctx args = Ok options ->
  answer env (CtxPush options) = Ok a ->
  check_gen_context env (push env ctx options) (after_push options s)
  = (s1, Raise e) ->
  cmd_gen env ctx args s = (s1, Raise e)
  /\ (calls s1 = (calls s ++ [CtxPush options])%list
      \/ exists outer,
           calls s1 = (calls s ++ [CtxPush options; ReadOuterInfo outer])%list).
Proof.
  intros H Ha Hcheck. split.
  - by rewrite (cmd_gen_until_check _ _ _ _ _ _ H Ha), Hcheck.
  - destruct (check_gen_context_state env (push env ctx options)
                (after_push options s)) as [Hs | (outer & _ & _ & Hs)];
      rewrite Hcheck in Hs; cbn [fst] in Hs; subst s1.
    + left. apply calls_after_push.
    + right. exists outer.
      by rewrite calls_record_call, calls_after_push, <- app_assoc.
Qed.

Lemma validation_failure_stops_gen_witness :
  format_gen_args sample_ctx (token_args true "foo.py")
  = Ok (token_options true "foo.py")
  /\ check_gen_context (gen_env [] all_fine)
       (push (gen_env [] all_fine) sample_ctx (token_options true "foo.py"))
       (after_push (token_options true "foo.py") basicConfig)
     = (after_push (token_options true "foo.py") basicConfig,
        Raise no_runtime_error)
  /\ cmd_gen (gen_env [] all_fine) sample_ctx (token_args true "foo.py")
       basicConfig
     = (after_push (token_options true "foo.py") basicConfig,
        Raise no_runtime_error).
Proof.
  assert (H : format_gen_args sample_ctx (token_args true "foo.py")
              = Ok (token_options true "foo.py")) by by_computation.
  assert (Hc : check_gen_context (gen_env [] all_fine)
                 (push (gen_env [] all_fine) sample_ctx
                    (token_options true "foo.py"))
                 (after_push (token_options true "foo.py") basicConfig)
               = (after_push (token_options true "foo.py") basicConfig,
                  Raise no_runtime_error)) by by_computation.
  split; [exact H|]. split; [exact Hc|].
  exact (proj1 (validation_failure_stops_gen (gen_env [] all_fine) sample_ctx
                  (token_args true "foo.py") (token_options true "foo.py")
                  VNone basicConfig
                  (after_push (token_options true "foo.py") basicConfig)
                  no_runtime_error H eq_refl Hc)).
Defined.

(** ** The interactive shell *)

(** [pyarmor -i] hands over to the shell: nothing is logged, no command
    is dispatched, and the exit status is 0 when the shell returns. *)
Theorem interactive_runs_shell env argv args home a b d q v i :
  parse_args env argv = Ok args ->
  supported_python env = true ->
  get_home env args = Ok home ->
  answer env (NewContext home) = Ok a ->
  args !! "debug" = Some d ->
  args !! "silent" = Some q ->
  args !! "version" = Some v ->
  truthy v = false ->
  args !! "interactive" = Some i ->
  truthy i = true ->
  answer env ShellCmdloop = Ok b ->
  (main env argv).2 = 0
  /\ calls (main env argv).1 = [NewContext home; ShellCmdloop]
  /\ console (main env argv).1 = [].
Proof.
  intros Hparse Hpy Hhome Ha Hd Hq Hv Hvf Hi Hit Hb.
  destruct (log_settings_result (new_context env home) args d q
              (record_call (NewContext home) basicConfig) Hd Hq)
    as (s' & Hset & _ & _ & _ & Hcon & Hcalls).
  assert (Hrun : main_entry env argv basicConfig
                 = (record_call ShellCmdloop s', Ok tt)).
  { rewrite (main_entry_start _ _ _ _ _ _ Hparse Hpy Hhome Ha).
    unfold bind at 1. rewrite Hset. unfold run_command.
    destruct (python_version env) as [[major minor] micro]. cbv zeta.
    rewrite (getattr_lookup _ _ _ Hv), bind_lift_Ok, Hvf.
    unfold bind at 1. unfold ret at 1.
    rewrite (getattr_lookup _ _ _ Hi), bind_lift_Ok, Hit.
    unfold bind, extern, ret. by rewrite Hb. }
  unfold main, main_from. rewrite Hrun. cbn [fst snd calls console record_call].
  by rewrite Hcon, Hcalls.
Qed.

Definition shell_flags : MainFlags :=
  {| m_version := false; m_silent := false; m_debug := false;
     m_interactive := true; m_home := None |}.

Lemma interactive_runs_shell_witness :
  parse_args (bare_env shell_flags) ["-i"] = Ok (bare_namespace shell_flags)
  /\ supported_python (bare_env shell_flags) = true
  /\ get_home (bare_env shell_flags) (bare_namespace shell_flags)
     = Ok "~/.pyarmor"
  /\ bare_namespace shell_flags !! "interactive" = Some (VBool true)
  /\ (main (bare_env shell_flags) ["-i"]).2 = 0
  /\ calls (main (bare_env shell_flags) ["-i"]).1
     = [NewContext "~/.pyarmor"; ShellCmdloop]
  /\ console (main (bare_env shell_flags) ["-i"]).1 = [].
Proof.
  assert (Hhome : get_home (bare_env shell_flags) (bare_namespace shell_flags)
                  = Ok "~/.pyarmor") by by_computation.
  assert (Hd : bare_namespace shell_flags !! "debug" = Some (VBool false))
    by by_computation.
  assert (Hq : bare_namespace shell_flags !! "silent" = Some (VBool false))
    by by_computation.
  assert (Hv : bare_namespace shell_flags !! "version" = Some (VBool false))
    by by_computation.
  assert (Hi : bare_namespace shell_flags !! "interactive" = Some (VBool true))
    by by_computation.
  split; [reflexivity|]. split; [reflexivity|]. split; [exact Hhome|].
  split; [exact Hi|].
  exact (interactive_runs_shell (bare_env shell_flags) ["-i"]
           (bare_namespace shell_flags) "~/.pyarmor" VNone VNone
           (VBool false) (VBool false) (VBool false) (VBool true)
           eq_refl eq_refl Hhome eq_refl Hd Hq Hv eq_refl Hi eq_refl eq_refl).
Defined.

(** ** Debug records *)



